(** * pyTracer: the geometric-transform core (src/core/transform.py,
      src/core/quaternion.py)

    A shallow embedding of the [Transform], [Quaternion] and
    [AnimatedTransform] code, followed by the properties stated about it.

    Conventions of the embedding.
    - Python floats are idealised as real numbers ([R]); numpy's linear
      algebra is exact in this model.
    - A raised exception is a value of [exn]; code that may raise returns a
      [result].
    - Decorators ([@jit], [@staticmethod], [@property]) do not change what a
      function computes and are left out.
    - A name or attribute that is read but bound nowhere raises, as it does
      in Python ([NameError], [AttributeError]).
    - Line 327 of transform.py is not valid Python; the reading taken is
      given at [AnimatedTransform.polar]. *)

From Stdlib Require Import Reals Lra Lia List Bool Arith.
Import ListNotations.

Local Open Scope R_scope.

(** ** Exceptions and results *)

Module Py.

Inductive exn : Type :=
| TypeError
| AttributeError
| NameError
| IndexError
| ValueError
| ZeroDivisionError
| LinAlgError.

Inductive result (A : Type) : Type :=
| Ok (a : A)
| Raise (e : exn).

Arguments Ok {A} a.
Arguments Raise {A} e.

Definition bind {A B : Type} (c : result A) (k : A -> result B) : result B :=
  match c with
  | Ok a => k a
  | Raise e => Raise e
  end.

Definition is_ok {A : Type} (c : result A) : bool :=
  match c with Ok _ => true | Raise _ => false end.

Definition raised {A : Type} (c : result A) : option exn :=
  match c with Ok _ => None | Raise e => Some e end.

(** [l[i]] for a non-negative index. *)
Definition getitem {A : Type} (l : list A) (i : nat) : result A :=
  match nth_error l i with
  | Some x => Ok x
  | None => Raise IndexError
  end.

Fixpoint update {A : Type} (l : list A) (i : nat) (v : A) : list A :=
  match l, i with
  | [], _ => []
  | _ :: t, O => v :: t
  | h :: t, S i' => h :: update t i' v
  end.

(** [l[i] = v] for a non-negative index. *)
Definition setitem {A : Type} (l : list A) (i : nat) (v : A) : result (list A) :=
  if (i <? length l)%nat then Ok (update l i v) else Raise IndexError.

End Py.

Export Py.

Declare Scope py_scope.
Delimit Scope py_scope with py.
Notation "x <- c ;; k" := (bind c (fun x => k))
  (at level 61, c at next level, right associativity) : py_scope.
Local Open Scope py_scope.

(** ** numpy arrays

    A 2-D array is the list of its rows, a 1-D array a list of numbers.
    Arrays are values here: [a.copy()] is [a]. *)

Module Np.

Definition vec := list R.
Definition ndarray := list (list R).

(** [np.shape(a) == (r, c)]: [r] rows, each of length [c]. *)
Definition shape_is (a : ndarray) (r c : nat) : bool :=
  (length a =? r)%nat && forallb (fun row => (length row =? c)%nat) a.

Definition eye4 : ndarray :=
  [[1; 0; 0; 0]; [0; 1; 0; 0]; [0; 0; 1; 0]; [0; 0; 0; 1]].

(** [a[i, j]] *)
Definition getitem2 (a : ndarray) (i j : nat) : result R :=
  row <- getitem a i ;; getitem row j.

(** [a[i][j] = v] *)
Definition setitem2 (a : ndarray) (i j : nat) (v : R) : result ndarray :=
  row <- getitem a i ;;
  row' <- setitem row j v ;;
  setitem a i row'.

(** In-range store, for the constant indices into [np.eye(4, 4)]. *)
Definition upd2 (a : ndarray) (i j : nat) (v : R) : ndarray :=
  update a i (update (nth i a []) j v).

(** [a[0:r, 0:c]]: slices clip to the array. *)
Definition block (a : ndarray) (r c : nat) : ndarray :=
  map (firstn c) (firstn r a).

(** [a[0:r, j]] *)
Definition column (a : ndarray) (r j : nat) : result vec :=
  (fix go (rows : ndarray) : result vec :=
     match rows with
     | [] => Ok []
     | row :: rest =>
         x <- getitem row j ;; xs <- go rest ;; Ok (x :: xs)
     end) (firstn r a).

Definition ncols (a : ndarray) : nat := length (hd [] a).

(** [a.T] *)
Definition transpose (a : ndarray) : ndarray :=
  map (fun j => map (fun row => nth j row 0) a) (seq 0 (ncols a)).

Definition sum (v : vec) : R := fold_right Rplus 0 v.

Definition inner (u v : vec) : R := sum (map (fun p => fst p * snd p) (combine u v)).

(** [a.dot(v)] for a 1-D [v] *)
Definition matvec (a : ndarray) (v : vec) : result vec :=
  if forallb (fun row => (length row =? length v)%nat) a
  then Ok (map (fun row => inner row v) a)
  else Raise ValueError.

(** [a.dot(b)] for 2-D [a] and [b] *)
Definition dot (a b : ndarray) : result ndarray :=
  if forallb (fun row => (length row =? length b)%nat) a
  then Ok (map (fun row => map (fun col => inner row col) (transpose b)) a)
  else Raise ValueError.

(** [u + v] for two 1-D arrays of the same length *)
Definition vadd (u v : vec) : result vec :=
  if (length u =? length v)%nat
  then Ok (map (fun p => fst p + snd p) (combine u v))
  else Raise ValueError.

(** Elementwise combination of two 2-D arrays of the same shape. *)
Definition zip2 (f : R -> R -> R) (a b : ndarray) : ndarray :=
  map (fun p => map (fun q => f (fst q) (snd q)) (combine (fst p) (snd p)))
      (combine a b).

Definition map2 (f : R -> R) (a : ndarray) : ndarray := map (map f) a.

(** [a.trace()] *)
Fixpoint trace_from (i : nat) (a : ndarray) : R :=
  match a with
  | [] => 0
  | row :: rest => nth i row 0 + trace_from (S i) rest
  end.
Definition trace (a : ndarray) : R := trace_from 0 a.

Definition Reqb (x y : R) : bool := if Req_dec_T x y then true else false.

Fixpoint list_eqb {A : Type} (eqb : A -> A -> bool) (l1 l2 : list A) : bool :=
  match l1, l2 with
  | [], [] => true
  | x :: t1, y :: t2 => eqb x y && list_eqb eqb t1 t2
  | _, _ => false
  end.

(** [np.array_equal(a, b)] *)
Definition array_equal (a b : ndarray) : bool := list_eqb (list_eqb Reqb) a b.

(** *** numpy.linalg, in exact arithmetic *)

Fixpoint drop_nth {A : Type} (n : nat) (l : list A) : list A :=
  match l, n with
  | [], _ => []
  | _ :: t, O => t
  | h :: t, S n' => h :: drop_nth n' t
  end.

Definition sign (n : nat) : R := if Nat.even n then 1 else -1.

(** Laplace expansion along the first row; [n] is the number of rows. *)
Fixpoint det_rec (n : nat) (a : ndarray) : R :=
  match n, a with
  | S n', row :: rest =>
      sum (map (fun p => sign (fst p) * snd p * det_rec n' (map (drop_nth (fst p)) rest))
               (combine (seq 0 (length row)) row))
  | _, _ => 1
  end.

(** [np.linalg.det(a)] *)
Definition det (a : ndarray) : R := det_rec (length a) a.

Definition cofactor (a : ndarray) (i j : nat) : R :=
  sign (i + j) * det (map (drop_nth j) (drop_nth i a)).

Definition adjugate (a : ndarray) : ndarray :=
  map (fun i => map (fun j => cofactor a j i) (seq 0 (length a))) (seq 0 (length a)).

(** [np.linalg.inv(a)] in exact arithmetic: raises [LinAlgError] unless [a]
    is square and non-singular.  In double precision the routine raises
    only when its factorisation meets a pivot that is exactly zero, so the
    refusal of a singular matrix is used below for the zero matrix only. *)
Definition inv (a : ndarray) : result ndarray :=
  if shape_is a (length a) (length a) then
    if Req_dec_T (det a) 0 then Raise LinAlgError
    else Ok (map2 (fun x => x / det a) (adjugate a))
  else Raise LinAlgError.

End Np.

(** ** src/core/pytracer.py (not among the sources) *)

Module Pytracer.

(** Modelled from the spec: the tolerance [EPS] of src/core/pytracer.py, a
    small positive constant.  The proofs use [0 < EPS < 1] only. *)
Definition EPS : R := 1 / 100000.

(** Modelled from the spec: [ne_unity(x)] of src/core/pytracer.py, "differs
    from 1, compared with tolerance [EPS]". *)
Definition ne_unity (x : R) : bool :=
  if Rlt_dec x (1 - EPS) then true
  else if Rlt_dec (1 + EPS) x then true else false.

(** Modelled from the spec: [Lerp(t, v1, v2)] of src/core/pytracer.py, linear
    interpolation. *)
Definition Lerp (t v1 v2 : R) : R := (1 - t) * v1 + t * v2.

(** Modelled from the spec: [ufunc_lerp], [Lerp] applied component-wise. *)
Definition ufunc_lerp (t : R) (a b : Np.ndarray) : Np.ndarray :=
  Np.zip2 (Lerp t) a b.

End Pytracer.

(** ** src/core/geometry.py (not among the sources) *)

Module Geometry.

(** Modelled from the spec: the geometric primitives of src/core/geometry.py,
    which "expose their raw coordinate components"; a box has "accessible
    min/max corners and a union operation". *)
Record Point : Type := mkPoint { px : R; py : R; pz : R }.
Record Vector : Type := mkVector { vx : R; vy : R; vz : R }.
Record Normal : Type := mkNormal { nx : R; ny : R; nz : R }.
Record Ray : Type := mkRay { o : Point; d : Vector; mint : R; maxt : R; time : R }.
Record BBox : Type := mkBBox { pMin : Point; pMax : Point }.

Definition arr_of_Point (p : Point) : Np.vec := [px p; py p; pz p].
Definition arr_of_Vector (v : Vector) : Np.vec := [vx v; vy v; vz v].
Definition arr_of_Normal (n : Normal) : Np.vec := [nx n; ny n; nz n].

(** [v1 + v2], [s * v], [p + v], [p /= s] *)
Definition Vector_add (a b : Vector) : Vector :=
  mkVector (vx a + vx b) (vy a + vy b) (vz a + vz b).
Definition Vector_rmul (s : R) (v : Vector) : Vector :=
  mkVector (s * vx v) (s * vy v) (s * vz v).
Definition Point_add (p : Point) (v : Vector) : Point :=
  mkPoint (px p + vx v) (py p + vy v) (pz p + vz v).
Definition Point_div (p : Point) (s : R) : Point :=
  mkPoint (px p / s) (py p / s) (pz p / s).

(** A point lies in a box when it is between the corners on every axis. *)
Definition inside (p : Point) (b : BBox) : Prop :=
  px (pMin b) <= px p <= px (pMax b) /\
  py (pMin b) <= py p <= py (pMax b) /\
  pz (pMin b) <= pz p <= pz (pMax b).

(** Modelled from the spec: the box built by [BBox()] is the empty box
    ([None] here), and [ret.union(b)] accumulates into [ret] the smallest
    box around [ret] and [b]. *)
Definition union (ret : option BBox) (b : BBox) : option BBox :=
  match ret with
  | None => Some b
  | Some a =>
      Some (mkBBox
              (mkPoint (Rmin (px (pMin a)) (px (pMin b)))
                       (Rmin (py (pMin a)) (py (pMin b)))
                       (Rmin (pz (pMin a)) (pz (pMin b))))
              (mkPoint (Rmax (px (pMax a)) (px (pMax b)))
                       (Rmax (py (pMax a)) (py (pMax b)))
                       (Rmax (pz (pMax a)) (pz (pMax b)))))
  end.

(** The arguments [Transform.__call__] tells apart with [isinstance]. *)
Inductive geom : Type :=
| GPoint (p : Point)
| GVector (v : Vector)
| GNormal (n : Normal)
| GRay (r : Ray)
| GBBox (b : BBox)
| GOther.

End Geometry.

(** ** class Transform (src/core/transform.py) *)

Module Transform.
Import Np Pytracer Geometry.

Record t : Type := mk { m : ndarray; mInv : ndarray }.

(** [Transform(m, mInv)]; [None] stands for an argument left out.  The
    [dtype] argument only selects the element type of [np.eye]. *)
Definition init (m mInv : option ndarray) : result t :=
  match m, mInv with
  | None, _ => Ok (mk eye4 eye4)
  | Some m, Some mInv => Ok (mk m mInv)
  | Some m, None =>
      if negb (shape_is m 4 4) then Raise TypeError
      else mi <- inv m ;; Ok (mk m mi)
  end.

(** [__eq__], [__ne__] *)
Definition eq (self other : t) : bool := array_equal (m self) (m other).
Definition ne (self other : t) : bool := negb (array_equal (m self) (m other)).

Definition call_Point (self : t) (arg : Point) : result Point :=
  a <- matvec (block (m self) 4 3) (arr_of_Point arg) ;;
  c <- column (m self) 4 3 ;;
  res <- vadd a c ;;
  r0 <- getitem res 0 ;; r1 <- getitem res 1 ;; r2 <- getitem res 2 ;;
  let p := mkPoint r0 r1 r2 in
  r3 <- getitem res 3 ;;
  if ne_unity r3 then Ok (Point_div p r3) else Ok p.

Definition call_Vector (self : t) (arg : Vector) : result Vector :=
  res <- matvec (block (m self) 3 3) (arr_of_Vector arg) ;;
  r0 <- getitem res 0 ;; r1 <- getitem res 1 ;; r2 <- getitem res 2 ;;
  Ok (mkVector r0 r1 r2).

(** "must be transformed by inverse transpose" *)
Definition call_Normal (self : t) (arg : Normal) : result Normal :=
  res <- matvec (transpose (block (mInv self) 3 3)) (arr_of_Normal arg) ;;
  r0 <- getitem res 0 ;; r1 <- getitem res 1 ;; r2 <- getitem res 2 ;;
  Ok (mkNormal r0 r1 r2).

Definition call_Ray (self : t) (arg : Ray) : result Ray :=
  o' <- call_Point self (o arg) ;;
  d' <- call_Vector self (d arg) ;;
  Ok (mkRay o' d' (mint arg) (maxt arg) (time arg)).

Definition call_BBox (self : t) (arg : BBox) : result BBox :=
  let res := arg in
  let x := mkVector (px (pMax res) - px (pMin res)) 0 0 in
  let y := mkVector 0 (py (pMax res) - py (pMin res)) 0 in
  let z := mkVector 0 0 (pz (pMax res) - pz (pMin res)) in
  pMin' <- call_Point self (pMin res) ;;
  x <- call_Vector self x ;;
  y <- call_Vector self y ;;
  z <- call_Vector self z ;;
  Ok (mkBBox pMin' (Point_add pMin' (Vector_add (Vector_add x y) z))).

(** [__call__] *)
Definition call (self : t) (arg : geom) : result geom :=
  match arg with
  | GPoint p => r <- call_Point self p ;; Ok (GPoint r)
  | GVector v => r <- call_Vector self v ;; Ok (GVector r)
  | GNormal n => r <- call_Normal self n ;; Ok (GNormal r)
  | GRay r0 => r <- call_Ray self r0 ;; Ok (GRay r)
  | GBBox b => r <- call_BBox self b ;; Ok (GBBox r)
  | GOther => Raise TypeError
  end.

(** [__mul__] *)
Definition mul (self other : t) : result t :=
  m' <- dot (m self) (m other) ;;
  mInv' <- dot (mInv other) (mInv self) ;;
  init (Some m') (Some mInv').

Definition translate (delta : Vector) : result t :=
  let m := eye4 in
  let mInv := eye4 in
  let m := upd2 m 0 3 (vx delta) in
  let m := upd2 m 1 3 (vy delta) in
  let m := upd2 m 2 3 (vz delta) in
  let mInv := upd2 mInv 0 3 (- vx delta) in
  let mInv := upd2 mInv 1 3 (- vy delta) in
  let mInv := upd2 mInv 2 3 (- vz delta) in
  init (Some m) (Some mInv).

(** Python's [1. / x] raises [ZeroDivisionError] at [x = 0]. *)
Definition pydiv (a b : R) : result R :=
  if Req_dec_T b 0 then Raise ZeroDivisionError else Ok (a / b).

Definition scale (x y z : R) : result t :=
  let m := eye4 in
  let mInv := eye4 in
  let m := upd2 m 0 0 x in
  let m := upd2 m 1 1 y in
  let m := upd2 m 2 2 z in
  ix <- pydiv 1 x ;;
  let mInv := upd2 mInv 0 0 ix in
  iy <- pydiv 1 y ;;
  let mInv := upd2 mInv 1 1 iy in
  iz <- pydiv 1 z ;;
  let mInv := upd2 mInv 2 2 iz in
  init (Some m) (Some mInv).

Definition deg2rad (angle : R) : R := angle * (PI / 180).

Definition rotate_x (angle : R) : result t :=
  let m := eye4 in
  let sin_t := sin (deg2rad angle) in
  let cos_t := cos (deg2rad angle) in
  let m := upd2 m 1 1 cos_t in
  let m := upd2 m 1 2 (- sin_t) in
  let m := upd2 m 2 1 sin_t in
  let m := upd2 m 2 2 cos_t in
  init (Some m) (Some (transpose m)).

Definition rotate_y (angle : R) : result t :=
  let m := eye4 in
  let sin_t := sin (deg2rad angle) in
  let cos_t := cos (deg2rad angle) in
  let m := upd2 m 0 0 cos_t in
  let m := upd2 m 0 2 sin_t in
  let m := upd2 m 2 0 (- sin_t) in
  let m := upd2 m 2 2 cos_t in
  init (Some m) (Some (transpose m)).

Definition rotate_z (angle : R) : result t :=
  let m := eye4 in
  let sin_t := sin (deg2rad angle) in
  let cos_t := cos (deg2rad angle) in
  let m := upd2 m 0 0 cos_t in
  let m := upd2 m 0 1 (- sin_t) in
  let m := upd2 m 1 0 sin_t in
  let m := upd2 m 1 1 cos_t in
  init (Some m) (Some (transpose m)).

Definition inverse (self : t) : result t :=
  init (Some (mInv self)) (Some (m self)).

Definition is_identity (self : t) : bool := array_equal (m self) eye4.

(** [a or b or c] evaluates left to right and stops at the first true
    operand. *)
Definition has_scale (self : t) : result bool :=
  m00 <- getitem2 (m self) 0 0 ;;
  if ne_unity (m00 * m00) then Ok true else
  m11 <- getitem2 (m self) 1 1 ;;
  if ne_unity (m11 * m11) then Ok true else
  m22 <- getitem2 (m self) 2 2 ;;
  Ok (ne_unity (m22 * m22)).

Definition swaps_handedness (self : t) : result bool :=
  let a := block (m self) 3 3 in
  if shape_is a (length a) (length a)
  then Ok (if Rlt_dec (det a) 0 then true else false)
  else Raise LinAlgError.

(** [rotate] and [look_at] build their matrices with [normalize] and
    [cross] of src/core/geometry.py and, like the other named constructors,
    end in the two-matrix call [Transform(m, mInv)]. *)

End Transform.

(** ** Quaternions (src/core/quaternion.py) *)

(** The quaternion type of the [quaternion] package: [np.quaternion(w, x, y, z)]
    with fields [w], [x], [y], [z], scalar multiples, sums and
    [normalized()]. *)
Module quaternion.

Record quaternion : Type := np_quaternion { w : R; x : R; y : R; z : R }.

Definition scal (s : R) (q : quaternion) : quaternion :=
  np_quaternion (s * w q) (s * x q) (s * y q) (s * z q).
Definition add (p q : quaternion) : quaternion :=
  np_quaternion (w p + w q) (x p + x q) (y p + y q) (z p + z q).
Definition sub (p q : quaternion) : quaternion :=
  np_quaternion (w p - w q) (x p - x q) (y p - y q) (z p - z q).
Definition abs (q : quaternion) : R :=
  sqrt (w q * w q + x q * x q + y q * y q + z q * z q).
Definition normalized (q : quaternion) : quaternion :=
  np_quaternion (w q / abs q) (x q / abs q) (y q / abs q) (z q / abs q).

End quaternion.

(** The objects that reach [fromTransform] and the list [T = R = S] at run
    time; attribute access depends on the class of the object. *)
Inductive pyobj : Type :=
| ONone
| OArray (a : Np.ndarray)
| OTransform (t : Transform.t)
| OVector (v : Geometry.Vector)
| OQuaternion (q : quaternion.quaternion).

(** [o.m]: only a [Transform] has the attribute. *)
Definition attr_m (o : pyobj) : result Np.ndarray :=
  match o with
  | OTransform t => Ok (Transform.m t)
  | _ => Raise AttributeError
  end.

Module quat.
Import Np Pytracer quaternion.

Definition Quaternion : R -> R -> R -> R -> quaternion := np_quaternion.

Definition Dot (q1 q2 : quaternion) : R :=
  w q1 * w q2 + x q1 * x q2 + y q1 * y q2 + z q1 * z q2.

(** The array [m] that [toTransform] builds. *)
Definition toTransform_m (q : quaternion) : ndarray :=
  let '(x, y, z, w) := (w q, x q, y q, z q) in
  [[1 - 2 * (y * y + z * z); 2 * (x * y + z * w); 2 * (x * z - y * w)];
   [2 * (x * y - z * w); 1 - 2 * (x * x + z * z); 2 * (y * z + x * w)];
   [2 * (x * z + y * w); 2 * (y * z - x * w); 1 - 2 * (x * x + y * y)]].

Definition toTransform (q : quaternion) : result Transform.t :=
  let m := toTransform_m q in
  Transform.init (Some m) None.

Definition fromTransform (t : pyobj) : result quaternion :=
  m <- attr_m t ;;
  let tr := trace m in
  if Rlt_dec 0 tr then
    let s := sqrt (tr + 1) in
    let w := s / 2 in
    let s := 0.5 / s in
    m21 <- getitem2 m 2 1 ;; m12 <- getitem2 m 1 2 ;;
    let x := (m21 - m12) * s in
    m02 <- getitem2 m 0 2 ;; m20 <- getitem2 m 2 0 ;;
    let y := (m02 - m20) * s in
    m10 <- getitem2 m 1 0 ;; m01 <- getitem2 m 0 1 ;;
    let z := (m10 - m01) * s in
    Ok (Quaternion x y z w)
  else
    let nxt := [1; 2; 0]%nat in
    let q := [0; 0; 0] in
    let i := 0%nat in
    m11 <- getitem2 m 1 1 ;; m00 <- getitem2 m 0 0 ;;
    let i := if Rlt_dec m00 m11 then 1%nat else i in
    m22 <- getitem2 m 2 2 ;; mii <- getitem2 m i i ;;
    let i := if Rlt_dec m22 mii then 2%nat else i in
    j <- getitem nxt i ;;
    k <- getitem nxt j ;;
    mii <- getitem2 m i i ;; mjj <- getitem2 m j j ;; mkk <- getitem2 m k k ;;
    let s := sqrt ((mii - (mjj + mkk)) + 1) in
    q <- setitem q i (s * 0.5) ;;
    let s := if Req_dec_T s 0 then s else 0.5 / s in
    mkj <- getitem2 m k j ;; mjk <- getitem2 m j k ;;
    let w := (mkj - mjk) * s in
    mji <- getitem2 m j i ;; mij <- getitem2 m i j ;;
    q <- setitem q j ((mji + mij) * s) ;;
    mki <- getitem2 m k i ;; mik <- getitem2 m i k ;;
    q <- setitem q k ((mki + mik) * s) ;;
    q0 <- getitem q 0 ;; q1 <- getitem q 1 ;; q2 <- getitem q 2 ;;
    Ok (Quaternion q0 q1 q2 w).

(** [np.clip(x, lo, hi)] *)
Definition clip (x lo hi : R) : R := Rmin (Rmax x lo) hi.

Definition slerp (t : R) (q1 q2 : quaternion) : quaternion :=
  let cosTheta := Dot q1 q2 in
  if Rlt_dec (1 - EPS) cosTheta then
    normalized (add (scal (1 - t) q1) (scal t q2))
  else
    let theta := acos (clip cosTheta (-1) 1) in
    let thetap := theta * t in
    let qperp := normalized (sub q2 (scal cosTheta q1)) in
    add (scal (cos thetap) q1) (scal (sin thetap) qperp).

End quat.

(** ** class AnimatedTransform (src/core/transform.py) *)

Module AnimatedTransform.
Import Np Pytracer Geometry.

(** The attributes [__init__] stores on [self]. *)
Record t : Type := mk {
  startTime : R;
  endTime : R;
  startTransform : Transform.t;
  endTransform : Transform.t;
  animated : bool
}.

(** [M[0:r, j] = v] *)
Fixpoint set_column (M : ndarray) (r j : nat) (v : R) : result ndarray :=
  match r, M with
  | S r', row :: rest =>
      row' <- setitem row j v ;;
      rest' <- set_column rest r' j v ;;
      Ok (row' :: rest')
  | _, _ => Ok M
  end.

(** [M[i, 0:c] = v] *)
Definition set_row (M : ndarray) (i c : nat) (v : R) : result ndarray :=
  row <- getitem M i ;;
  setitem M i (map (fun _ => v) (firstn c row) ++ skipn c row).

(** [np.max(v)] *)
Definition np_max (v : vec) : result R :=
  match v with
  | [] => Raise ValueError
  | h :: rest => Ok (fold_left Rmax rest h)
  end.

(** The polar-decomposition loop of [Decompose].  Line 327 of the source,
    [for norm > EPS and _ in range(100):], is read as: at most 100 rounds,
    each entered only while [norm > EPS]. *)
Fixpoint polar (rounds : nat) (norm : R) (R : ndarray) : result ndarray :=
  match rounds with
  | O => Ok R
  | S rounds' =>
      if Rlt_dec EPS norm then
        Rit <- inv (transpose R) ;;
        let Rnext := map2 (fun v => 0.5 * v) (zip2 Rplus Rit R) in
        let D := block (map2 Rabs (zip2 Rminus Rnext Rit)) 3 3 in
        colmax <- np_max (map sum (transpose D)) ;;
        let norm := Rmax norm colmax in
        polar rounds' norm Rnext
      else Ok R
  end.

(** numpy arrays have no method [mul]: [a.mul(b)] raises. *)
Definition ndarray_mul (a b : ndarray) : result ndarray := Raise AttributeError.

Definition Decompose (m : ndarray)
  : result (Vector * quaternion.quaternion * ndarray) :=
  m03 <- getitem2 m 0 3 ;; m13 <- getitem2 m 1 3 ;; m23 <- getitem2 m 2 3 ;;
  let T := mkVector m03 m13 m23 in
  let M := m in
  M <- set_column M 3 3 0 ;;
  M <- set_row M 3 3 0 ;;
  M <- setitem2 M 3 3 1 ;;
  let norm := 2 * EPS in
  let R := M in
  R <- polar 100 norm R ;;
  Rquat <- quat.fromTransform (OArray R) ;;
  Ri <- inv R ;;
  S <- ndarray_mul Ri M ;;
  Ok (T, Rquat, S).

(** The attribute stores of [__init__], lines 250 to 254. *)
Definition new_self (t1 : Transform.t) (tm1 : R) (t2 : Transform.t) (tm2 : R)
  : t :=
  mk tm1 tm2 t1 t2 (Transform.ne t1 t2).

(** [__init__].  [T = R = S = [None, None]] binds three local names to one
    list, so the three stores of each line go to the same slot; the list is
    local and nothing of it is kept on [self]. *)
Definition init (t1 : Transform.t) (tm1 : R) (t2 : Transform.t) (tm2 : R)
  : result t :=
  let self := new_self t1 tm1 t2 tm2 in
  let TRS := [ONone; ONone] in
  d0 <- Decompose (Transform.m (startTransform self)) ;;
  let '(T0, R0, S0) := d0 in
  TRS <- setitem TRS 0 (OVector T0) ;;
  TRS <- setitem TRS 0 (OQuaternion R0) ;;
  TRS <- setitem TRS 0 (OArray S0) ;;
  d1 <- Decompose (Transform.m (endTransform self)) ;;
  let '(T1, R1, S1) := d1 in
  TRS <- setitem TRS 1 (OVector T1) ;;
  TRS <- setitem TRS 1 (OQuaternion R1) ;;
  TRS <- setitem TRS 1 (OArray S1) ;;
  Ok self.

(** [self.T]: [__init__] stores no attribute [T]. *)
Definition self_T (self : t) : result (list Vector) := Raise AttributeError.

(** The names [R], [S] and [startTransform] are bound neither in the
    function that reads them nor at module level. *)
Definition name_R : result (list quaternion.quaternion) := Raise NameError.
Definition name_S : result (list ndarray) := Raise NameError.
Definition name_startTransform : result Transform.t := Raise NameError.

Definition Rleb (a b : R) : bool := if Rle_dec a b then true else false.

(** [interpolate]; the result [None] is Python's [None], returned when the
    body ends without a [return]. *)
Definition interpolate (self : t) (time : R) : result (option Transform.t) :=
  if negb (animated self) || Rleb time (startTime self) then
    Ok (Some (startTransform self))
  else if Rleb (endTime self) time then
    Ok (Some (endTransform self))
  else
    dt <- Transform.pydiv (time - startTime self) (endTime self - startTime self) ;;
    T <- self_T self ;;
    T0 <- getitem T 0 ;; T1 <- getitem T 1 ;;
    let trans := Vector_add (Vector_rmul (1 - dt) T0) (Vector_rmul dt T1) in
    R <- name_R ;;
    R0 <- getitem R 0 ;; R1 <- getitem R 1 ;;
    let rot := quat.slerp dt R0 R1 in
    S <- name_S ;;
    S0 <- getitem S 0 ;; S1 <- getitem S 1 ;;
    let scale := ufunc_lerp dt S0 S1 in
    a <- Transform.translate trans ;;
    b <- quat.toTransform rot ;;
    ab <- Transform.mul a b ;;
    c <- Transform.init (Some scale) None ;;
    t <- Transform.mul ab c ;;
    Ok None.

(** The loop body of [motion_bounds] for sample [i]. *)
Definition motion_step (self : t) (b : BBox) (useInv : bool)
    (ret : option BBox) (i : nat) : result (option BBox) :=
  let steps := 128 in
  let time := Lerp (INR i * (1 / (steps - 1))) (startTime self) (endTime self) in
  t <- interpolate self time ;;
  t <- (if useInv then
          match t with
          | Some t => r <- Transform.inverse t ;; Ok (Some r)
          | None => Raise AttributeError
          end
        else Ok t) ;;
  tb <- match t with
        | Some t => Transform.call_BBox t b
        | None => Raise TypeError
        end ;;
  Ok (union ret tb).

Fixpoint motion_loop (self : t) (b : BBox) (useInv : bool)
    (ret : option BBox) (range : list nat) : result (option BBox) :=
  match range with
  | [] => Ok ret
  | i :: rest =>
      ret <- motion_step self b useInv ret i ;;
      motion_loop self b useInv ret rest
  end.

Definition motion_bounds (self : t) (b : BBox) (useInv : bool)
  : result (option BBox) :=
  if negb (animated self) then
    st <- name_startTransform ;;
    inv_st <- Transform.inverse st ;;
    r <- Transform.call_BBox inv_st b ;;
    Ok (Some r)
  else
    let ret := None in
    motion_loop self b useInv ret (seq 0 128).

(** [__call__] (lines 263 to 293) selects among [startTransform],
    [endTransform] and [interpolate(time)] and is not used below. *)

End AnimatedTransform.

(** * Properties *)

Import Np Pytracer Geometry.

(** ** Evaluation of the model *)

Ltac py_eval :=
  cbv [bind is_ok raised getitem update setitem
       shape_is eye4 getitem2 setitem2 upd2 block column ncols transpose sum
       inner matvec dot vadd zip2 map2 trace_from trace list_eqb array_equal
       drop_nth sign det_rec det cofactor adjugate
       Lerp ufunc_lerp
       arr_of_Point arr_of_Vector arr_of_Normal Vector_add Vector_rmul
       Point_add Point_div union px py pz vx vy vz nx ny nz o d mint maxt time
       pMin pMax
       Transform.m Transform.mInv Transform.init Transform.eq Transform.ne
       Transform.call_Point Transform.call_Vector Transform.call_Normal
       Transform.call_Ray Transform.call_BBox Transform.call Transform.mul
       Transform.translate Transform.scale Transform.rotate_x
       Transform.rotate_y Transform.rotate_z Transform.inverse
       Transform.is_identity Transform.has_scale
       quaternion.w quaternion.x quaternion.y quaternion.z
       attr_m quat.Quaternion quat.toTransform quat.toTransform_m
       AnimatedTransform.startTime AnimatedTransform.endTime
       AnimatedTransform.startTransform AnimatedTransform.endTransform
       AnimatedTransform.animated AnimatedTransform.new_self
       length seq map forallb Nat.eqb Nat.ltb Nat.leb andb orb negb nth
       nth_error hd firstn skipn combine fold_right fold_left fst snd app
       Nat.even Nat.add].

Ltac py_eval_in H :=
  cbv [bind is_ok raised getitem update setitem
       shape_is eye4 getitem2 setitem2 upd2 block column ncols transpose sum
       inner matvec dot vadd zip2 map2 trace_from trace list_eqb array_equal
       drop_nth sign det_rec det cofactor adjugate
       Transform.m Transform.mInv
       length seq map forallb Nat.eqb Nat.ltb Nat.leb andb orb negb nth
       nth_error hd firstn skipn combine fold_right fold_left fst snd app
       Nat.even Nat.add] in H.

(** Decide the real-number tests met while evaluating. *)
Ltac rdec :=
  repeat match goal with
  | |- context [Rlt_dec ?a ?b] => destruct (Rlt_dec a b); try lra
  | |- context [Rle_dec ?a ?b] => destruct (Rle_dec a b); try lra
  | |- context [Req_dec_T ?a ?b] => destruct (Req_dec_T a b); try lra
  end.

(** Split an equation between results, records and lists down to its real
    components. *)
Ltac components :=
  lazymatch goal with
  | |- @eq R _ _ => idtac
  | |- _ => first [ progress f_equal; components | idtac ]
  end.

Ltac by_components := components; try lra.

(** ** Vocabulary of the statements *)

Definition mk4 (a b c d e f g h i j k l m n o p : R) : ndarray :=
  [[a; b; c; d]; [e; f; g; h]; [i; j; k; l]; [m; n; o; p]].

(** [b] is the matrix inverse of the 4x4 matrix [a]. *)
Definition is_inverse (a b : ndarray) : Prop :=
  shape_is a 4 4 = true /\ shape_is b 4 4 = true /\
  dot a b = Ok eye4 /\ dot b a = Ok eye4.

Definition invertible (a : ndarray) : Prop := exists b, is_inverse a b.

(** The product of two matrices whose shapes agree. *)
Definition mm (a b : ndarray) : ndarray :=
  map (fun row => map (fun col => inner row col) (transpose b)) a.

(** A 3x3 array applied to the components of a normal: a linear map, with
    no translation and no renormalization. *)
Definition apply3 (B : ndarray) (n : Normal) : result Normal :=
  res <- matvec B (arr_of_Normal n) ;;
  r0 <- getitem res 0 ;; r1 <- getitem res 1 ;; r2 <- getitem res 2 ;;
  Ok (mkNormal r0 r1 r2).

(** [fromTransform(toTransform(q))] *)
Definition roundtrip (q : quaternion.quaternion) : result quaternion.quaternion :=
  t <- quat.toTransform q ;; quat.fromTransform (OTransform t).

(** The entry in row [i], column [j]. *)
Definition entry (a : ndarray) (i j : nat) : R := nth j (nth i a []) 0.

(** The squared length of the image of the [i]-th unit basis vector under
    the linear part of [a]: the square of the [i]-th axis scale factor. *)
Definition axis_scale_sq (a : ndarray) (i : nat) : R :=
  entry a 0 i * entry a 0 i + entry a 1 i * entry a 1 i
  + entry a 2 i * entry a 2 i.

(** Concrete inputs. *)
Definition diag4 (a b c d : R) : ndarray :=
  mk4 a 0 0 0  0 b 0 0  0 0 c 0  0 0 0 d.

(** The identity transform, [Transform()]. *)
Definition T_id : Transform.t := Transform.mk eye4 eye4.

(** [Transform.translate(Vector(1, 0, 0))] *)
Definition T_shift : Transform.t :=
  Transform.mk (mk4 1 0 0 1  0 1 0 0  0 0 1 0  0 0 0 1)
               (mk4 1 0 0 (-1)  0 1 0 0  0 0 1 0  0 0 0 1).

(** [Transform.scale(2, 1, 1)] *)
Definition T_scale211 : Transform.t :=
  Transform.mk (diag4 2 1 1 1) (diag4 (1 / 2) 1 1 1).

(** [Transform.rotate_z(90)]: a quarter turn about the z axis. *)
Definition Rz90 : ndarray := mk4 0 (-1) 0 0  1 0 0 0  0 0 1 0  0 0 0 1.
Definition T_rotz90 : Transform.t := Transform.mk Rz90 (transpose Rz90).

(** A shear along x: the image of the second basis vector is (1, 1, 0). *)
Definition T_shear : Transform.t :=
  Transform.mk (mk4 1 1 0 0  0 1 0 0  0 0 1 0  0 0 0 1)
               (mk4 1 (-1) 0 0  0 1 0 0  0 0 1 0  0 0 0 1).

(** [Transform(m, mInv)] with a stored "inverse" that is not one. *)
Definition T_mismatch : Transform.t := Transform.mk eye4 (diag4 2 2 2 1).

Definition unit_box : BBox := mkBBox (mkPoint 0 0 0) (mkPoint 1 1 1).

(** ** Matrices of shape (4, 4) *)

Lemma shape44_inv (a : ndarray) :
  shape_is a 4 4 = true ->
  exists a00 a01 a02 a03 a10 a11 a12 a13 a20 a21 a22 a23 a30 a31 a32 a33,
    a = mk4 a00 a01 a02 a03 a10 a11 a12 a13 a20 a21 a22 a23 a30 a31 a32 a33.
Proof.
  unfold shape_is. intros H. apply andb_prop in H as [Hr Hc].
  apply Nat.eqb_eq in Hr.
  destruct a as [|r0 [|r1 [|r2 [|r3 [|r4 rest]]]]]; try discriminate Hr.
  cbn [forallb] in Hc.
  repeat (apply andb_prop in Hc as [?H Hc]).
  repeat match goal with
  | H : (length ?r =? 4)%nat = true |- _ =>
      apply Nat.eqb_eq in H;
      destruct r as [|? [|? [|? [|? [|? ?]]]]]; try discriminate H; clear H
  end.
  unfold mk4. repeat eexists.
Qed.

Ltac as_mk4 a Ha :=
  let H := fresh in
  destruct (shape44_inv a Ha) as (?a00&?a01&?a02&?a03&?a10&?a11&?a12&?a13&?a20&?a21&?a22&?a23&?a30&?a31&?a32&?a33&H);
  subst a.

Lemma dot4_mm (a b : ndarray) :
  shape_is a 4 4 = true -> shape_is b 4 4 = true -> dot a b = Ok (mm a b).
Proof.
  intros Ha Hb. as_mk4 a Ha. as_mk4 b Hb. reflexivity.
Qed.

Lemma mm_assoc4 (a b c : ndarray) :
  shape_is a 4 4 = true -> shape_is b 4 4 = true -> shape_is c 4 4 = true ->
  mm (mm a b) c = mm a (mm b c).
Proof.
  intros Ha Hb Hc. as_mk4 a Ha. as_mk4 b Hb. as_mk4 c Hc.
  unfold mm, mk4. py_eval. components; ring.
Qed.

Lemma mm_eye4_l (a : ndarray) : shape_is a 4 4 = true -> mm eye4 a = a.
Proof.
  intros Ha. as_mk4 a Ha. unfold mm, mk4. py_eval. components; ring.
Qed.

Lemma mm_eye4_r (a : ndarray) : shape_is a 4 4 = true -> mm a eye4 = a.
Proof.
  intros Ha. as_mk4 a Ha. unfold mm, mk4. py_eval. components; ring.
Qed.

Lemma is_inverse_mm (a b : ndarray) :
  is_inverse a b -> mm a b = eye4 /\ mm b a = eye4.
Proof.
  intros (Ha & Hb & Hab & Hba).
  rewrite (dot4_mm a b Ha Hb) in Hab. rewrite (dot4_mm b a Hb Ha) in Hba.
  split; congruence.
Qed.

(** A matrix has at most one inverse. *)
Lemma inverse_unique (a b c : ndarray) :
  is_inverse a b -> is_inverse a c -> b = c.
Proof.
  intros Hb Hc.
  destruct (is_inverse_mm a b Hb) as [Hab _].
  destruct (is_inverse_mm a c Hc) as [_ Hca].
  destruct Hb as (Ha & Hsb & _). destruct Hc as (_ & Hsc & _).
  rewrite <- (mm_eye4_l b Hsb), <- Hca, (mm_assoc4 c a b Hsc Ha Hsb), Hab.
  apply mm_eye4_r; exact Hsc.
Qed.

Lemma det_eye4 : det eye4 = 1.
Proof. py_eval. lra. Qed.


Lemma inv4_correct (a : ndarray) :
  shape_is a 4 4 = true -> det a <> 0 ->
  exists ai, inv a = Ok ai /\ is_inverse a ai.
Proof.
  intros Ha Hd. as_mk4 a Ha.
  unfold inv. change (shape_is _ _ _) with true. cbv iota.
  destruct (Req_dec_T _ 0) as [H0|H0]; [contradiction|].
  eexists. split; [reflexivity|].
  remember (det _) as D eqn:HD. clear Hd.
  unfold is_inverse. unfold mk4 in *. py_eval. py_eval_in HD.
  repeat split; components; (field_simplify_eq; [subst D; ring | exact H0]).
Qed.



Lemma det_invertible (a : ndarray) :
  shape_is a 4 4 = true -> det a <> 0 -> invertible a.
Proof.
  intros Ha Hd. destruct (inv4_correct a Ha Hd) as (ai & _ & H).
  exists ai; exact H.
Qed.

Lemma is_inverse_diag (a b c : R) :
  a <> 0 -> b <> 0 -> c <> 0 ->
  is_inverse (diag4 a b c 1) (diag4 (1 / a) (1 / b) (1 / c) 1).
Proof.
  intros. unfold is_inverse, diag4, mk4. py_eval.
  repeat split; components; field; assumption.
Qed.

Lemma block_transpose4 (a : ndarray) :
  shape_is a 4 4 = true ->
  block (transpose a) 3 3 = transpose (block a 3 3).
Proof. intros Ha. as_mk4 a Ha. reflexivity. Qed.

(** ** Transform: construction *)

Lemma init_two_matrices (a b : ndarray) :
  Transform.init (Some a) (Some b) = Ok (Transform.mk a b).
Proof. reflexivity. Qed.

Lemma is_inverse_eye4 : is_inverse eye4 eye4.
Proof. unfold is_inverse. py_eval. repeat split; by_components. Qed.

Lemma is_inverse_scale211 :
  is_inverse (Transform.m T_scale211) (Transform.mInv T_scale211).
Proof.
  unfold is_inverse, T_scale211, diag4, mk4. py_eval.
  repeat split; by_components.
Qed.

Lemma scale211 : Transform.scale 2 1 1 = Ok T_scale211.
Proof.
  unfold Transform.scale, Transform.pydiv. rdec.
  unfold T_scale211, diag4, mk4. py_eval. by_components.
Qed.

(** C10.  With both [m] and [mInv] supplied the constructor returns the
    Transform holding exactly the two arrays, whatever they are: it raises
    for no pair, checks no shape (a 1x1 array is accepted) and does not
    compare [mInv] with the inverse of [m] (the identity is accepted with a
    stored [mInv] that is not its inverse). *)
Theorem C10_two_matrices_unchecked :
  (forall a b : ndarray, Transform.init (Some a) (Some b) = Ok (Transform.mk a b)) /\
  (exists a b t, Transform.init (Some a) (Some b) = Ok t /\
     shape_is (Transform.m t) 4 4 = false) /\
  (exists a b t, Transform.init (Some a) (Some b) = Ok t /\
     shape_is (Transform.m t) 4 4 = true /\
     shape_is (Transform.mInv t) 4 4 = true /\
     ~ is_inverse (Transform.m t) (Transform.mInv t)).
Proof.
  split; [exact init_two_matrices|]. split.
  - exists [[1]], [[1]], (Transform.mk [[1]] [[1]]). split; reflexivity.
  - exists eye4, (diag4 2 2 2 1), T_mismatch.
    split; [reflexivity|]. split; [reflexivity|]. split; [reflexivity|].
    intros H. pose proof (inverse_unique _ _ _ H is_inverse_eye4) as E.
    unfold T_mismatch, diag4, mk4, eye4 in E. cbn [Transform.mInv] in E.
    injection E as E _. lra.
Qed.




(** ** Transform: application to a normal *)

(** C1, as amended.  Applying [t] to a normal [n] applies the transpose of
    the upper-left 3x3 block of the stored [t.mInv] to the components of
    [n], without translation and without renormalization.  When the stored
    [mInv] is the matrix inverse of [t.m], this is the upper-left 3x3 block
    of the inverse transpose of [t.m]: component [i] of the result is the
    sum over [j] of [inverse(m)[j][i] * n[j]].  [Transform.scale(2, 1, 1)]
    sends the normal (1, 0, 0) to (0.5, 0, 0). *)
Theorem C1_normal_by_inverse_transpose (t : Transform.t) (n : Normal) :
  Transform.call_Normal t n
    = apply3 (transpose (block (Transform.mInv t) 3 3)) n /\
  (forall mi : ndarray,
     is_inverse (Transform.m t) (Transform.mInv t) ->
     is_inverse (Transform.m t) mi ->
     Transform.call_Normal t n = apply3 (block (transpose mi) 3 3) n /\
     Transform.call_Normal t n =
       Ok (mkNormal
             (entry mi 0 0 * nx n + entry mi 1 0 * ny n + entry mi 2 0 * nz n)
             (entry mi 0 1 * nx n + entry mi 1 1 * ny n + entry mi 2 1 * nz n)
             (entry mi 0 2 * nx n + entry mi 1 2 * ny n + entry mi 2 2 * nz n))) /\
  (Transform.scale 2 1 1 = Ok T_scale211 /\
   Transform.call_Normal T_scale211 (mkNormal 1 0 0) = Ok (mkNormal 0.5 0 0)).
Proof.
  split; [reflexivity|]. split.
  - intros mi Hst Hmi.
    pose proof (inverse_unique _ _ _ Hst Hmi) as E.
    destruct Hmi as (_ & Hs & _).
    destruct t as [a ai]. cbn [Transform.m Transform.mInv] in *. subst ai.
    split.
    + rewrite (block_transpose4 mi Hs). reflexivity.
    + as_mk4 mi Hs. destruct n as [n0 n1 n2]. unfold entry, mk4. py_eval.
      by_components.
  - split; [exact scale211|].
    unfold T_scale211, diag4, mk4. py_eval. by_components.
Qed.

Lemma C1_witness :
  is_inverse (Transform.m T_scale211) (Transform.mInv T_scale211) /\
  Transform.call_Normal T_scale211 (mkNormal 1 0 0)
    = apply3 (block (transpose (Transform.mInv T_scale211)) 3 3) (mkNormal 1 0 0).
Proof.
  split; [exact is_inverse_scale211|].
  destruct (C1_normal_by_inverse_transpose T_scale211 (mkNormal 1 0 0))
    as (_ & H & _).
  apply (H (Transform.mInv T_scale211) is_inverse_scale211 is_inverse_scale211).
Defined.

(** C1 as stated fails for a Transform built from two matrices: with
    [m] the identity and a stored [mInv] of [diag(2, 2, 2, 1)], the normal
    (1, 0, 0) is sent to (2, 0, 0), while the inverse transpose of [m], the
    identity, sends it to (1, 0, 0). *)
Lemma C1_counterexample :
  Transform.init (Some eye4) (Some (diag4 2 2 2 1)) = Ok T_mismatch /\
  is_inverse (Transform.m T_mismatch) eye4 /\
  Transform.call_Normal T_mismatch (mkNormal 1 0 0) = Ok (mkNormal 2 0 0) /\
  apply3 (block (transpose eye4) 3 3) (mkNormal 1 0 0) = Ok (mkNormal 1 0 0) /\
  Transform.call_Normal T_mismatch (mkNormal 1 0 0)
    <> apply3 (block (transpose eye4) 3 3) (mkNormal 1 0 0).
Proof.
  assert (H1 : Transform.call_Normal T_mismatch (mkNormal 1 0 0)
               = Ok (mkNormal 2 0 0)).
  { unfold T_mismatch, diag4, mk4. py_eval. by_components. }
  assert (H2 : apply3 (block (transpose eye4) 3 3) (mkNormal 1 0 0)
               = Ok (mkNormal 1 0 0)).
  { unfold apply3. py_eval. by_components. }
  split; [reflexivity|]. split; [exact is_inverse_eye4|].
  split; [exact H1|]. split; [exact H2|].
  rewrite H1, H2. intros E. injection E as E. lra.
Qed.

(** ** AnimatedTransform: construction *)

Lemma EPS_pos : 0 < EPS.
Proof. unfold EPS. lra. Qed.

Lemma fromTransform_array (a : ndarray) :
  quat.fromTransform (OArray a) = Raise AttributeError.
Proof. reflexivity. Qed.

Lemma inv_eye4 : inv eye4 = Ok eye4.
Proof.
  unfold inv. change (shape_is _ _ _) with true. cbv iota.
  rewrite det_eye4. destruct (Req_dec_T 1 0) as [H|_]; [lra|].
  py_eval. by_components.
Qed.

Lemma polar_eye4 (rounds : nat) (norm : R) :
  EPS < norm -> AnimatedTransform.polar rounds norm eye4 = Ok eye4.
Proof.
  revert norm. induction rounds as [|rounds IH]; intros norm Hn; [reflexivity|].
  cbn [AnimatedTransform.polar].
  destruct (Rlt_dec EPS norm) as [_|H]; [|contradiction].
  change (transpose eye4) with eye4. rewrite inv_eye4. cbn [bind].
  assert (E : map2 (fun v => 0.5 * v) (zip2 Rplus eye4 eye4) = eye4).
  { py_eval. by_components. }
  rewrite E.
  destruct (AnimatedTransform.np_max _) as [colmax|e] eqn:Hmax;
    [|discriminate Hmax].
  cbn [bind]. apply IH.
  apply Rlt_le_trans with norm; [exact Hn|apply Rmax_l].
Qed.

Lemma Decompose_eye4 : AnimatedTransform.Decompose eye4 = Raise AttributeError.
Proof.
  unfold AnimatedTransform.Decompose.
  change (getitem2 eye4 0 3) with (Ok 0).
  change (getitem2 eye4 1 3) with (Ok 0).
  change (getitem2 eye4 2 3) with (Ok 0).
  cbn [bind].
  change (AnimatedTransform.set_column eye4 3 3 0) with (Ok eye4).
  cbn [bind].
  change (AnimatedTransform.set_row eye4 3 3 0) with (Ok eye4).
  cbn [bind].
  change (setitem2 eye4 3 3 1) with (Ok eye4).
  cbn [bind].
  rewrite polar_eye4; [reflexivity|].
  pose proof EPS_pos. lra.
Qed.

(** [Decompose] returns for no matrix: whatever the loop computes, the next
    statement hands an array to [fromTransform]. *)
Lemma Decompose_never_returns (a : ndarray) :
  is_ok (AnimatedTransform.Decompose a) = false.
Proof.
  unfold AnimatedTransform.Decompose.
  repeat match goal with
  | |- is_ok (bind ?c _) = false => destruct c; cbn [bind is_ok]; try reflexivity
  end.
Qed.

Lemma init_unfold (t1 t2 : Transform.t) (tm1 tm2 : R) :
  AnimatedTransform.init t1 tm1 t2 tm2 =
    (_ <- AnimatedTransform.Decompose (Transform.m t1) ;;
     _ <- AnimatedTransform.Decompose (Transform.m t2) ;;
     Ok (AnimatedTransform.new_self t1 tm1 t2 tm2)).
Proof.
  unfold AnimatedTransform.init.
  cbn [AnimatedTransform.startTransform AnimatedTransform.endTransform
       AnimatedTransform.new_self].
  destruct (AnimatedTransform.Decompose (Transform.m t1)) as [[[T0 R0] S0]|e];
    [|reflexivity].
  cbn [bind setitem length Nat.ltb Nat.leb update].
  destruct (AnimatedTransform.Decompose (Transform.m t2)) as [[[T1 R1] S1]|e];
    reflexivity.
Qed.

Lemma init_times_irrelevant (t1 t2 : Transform.t) (tm1 tm2 tm1' tm2' : R) :
  raised (AnimatedTransform.init t1 tm1 t2 tm2)
    = raised (AnimatedTransform.init t1 tm1' t2 tm2').
Proof.
  rewrite !init_unfold.
  destruct (AnimatedTransform.Decompose (Transform.m t1)); [|reflexivity].
  cbn [bind].
  destruct (AnimatedTransform.Decompose (Transform.m t2)); reflexivity.
Qed.

(** C3.  With the times 0 < 1 the construction returns no object: the call
    of [Decompose] raises, whatever its loop computes, because it hands an
    array to [quat.fromTransform].  With the times 1 >= 0 the outcome is the
    same one: [__init__] holds no test of the time range. *)
Theorem C3_construction_raises_for_ordered_times :
  is_ok (AnimatedTransform.init T_id 0 T_shift 1) = false /\
  raised (AnimatedTransform.init T_id 1 T_shift 0)
    = raised (AnimatedTransform.init T_id 0 T_shift 1).
Proof.
  split; [|apply init_times_irrelevant].
  rewrite init_unfold.
  pose proof (Decompose_never_returns (Transform.m T_id)) as H.
  destruct (AnimatedTransform.Decompose (Transform.m T_id));
    [discriminate H|reflexivity].
Qed.

(** ** AnimatedTransform: interpolate *)

Lemma Reqb_refl (v : R) : Reqb v v = true.
Proof. unfold Reqb. destruct (Req_dec_T v v); [reflexivity|contradiction]. Qed.

Lemma array_equal_refl (a : ndarray) : array_equal a a = true.
Proof.
  unfold array_equal. induction a as [|row rest IH]; [reflexivity|].
  cbn [list_eqb]. rewrite IH, andb_true_r.
  induction row as [|v row IHr]; [reflexivity|].
  cbn [list_eqb]. rewrite Reqb_refl, IHr. reflexivity.
Qed.

Lemma eq_id_shift : Transform.eq T_id T_shift = false.
Proof.
  unfold T_id, T_shift, mk4. py_eval. unfold Reqb. rdec; reflexivity.
Qed.

Lemma animated_id_shift (tm1 tm2 : R) :
  AnimatedTransform.animated (AnimatedTransform.new_self T_id tm1 T_shift tm2)
    = true.
Proof.
  unfold T_id, T_shift, mk4. py_eval. unfold Reqb. rdec; reflexivity.
Qed.

Lemma animated_shift_shift (tm1 tm2 : R) :
  AnimatedTransform.animated (AnimatedTransform.new_self T_shift tm1 T_shift tm2)
    = false.
Proof.
  cbn [AnimatedTransform.animated AnimatedTransform.new_self].
  unfold Transform.ne. rewrite array_equal_refl. reflexivity.
Qed.

Lemma interpolate_start (a : AnimatedTransform.t) (time : R) :
  AnimatedTransform.animated a = false \/ time <= AnimatedTransform.startTime a ->
  AnimatedTransform.interpolate a time
    = Ok (Some (AnimatedTransform.startTransform a)).
Proof.
  intros H. unfold AnimatedTransform.interpolate, AnimatedTransform.Rleb.
  destruct (AnimatedTransform.animated a); [|reflexivity].
  destruct H as [H|H]; [discriminate H|].
  destruct (Rle_dec time (AnimatedTransform.startTime a)); [reflexivity|contradiction].
Qed.

Lemma interpolate_end (a : AnimatedTransform.t) (time : R) :
  AnimatedTransform.animated a = true ->
  AnimatedTransform.startTime a < time ->
  AnimatedTransform.endTime a <= time ->
  AnimatedTransform.interpolate a time
    = Ok (Some (AnimatedTransform.endTransform a)).
Proof.
  intros Ha Hs He. unfold AnimatedTransform.interpolate, AnimatedTransform.Rleb.
  rewrite Ha. cbn [negb orb].
  destruct (Rle_dec time (AnimatedTransform.startTime a)); [lra|].
  destruct (Rle_dec (AnimatedTransform.endTime a) time); [reflexivity|contradiction].
Qed.

Lemma interpolate_between (a : AnimatedTransform.t) (time : R) :
  AnimatedTransform.animated a = true ->
  AnimatedTransform.startTime a < time < AnimatedTransform.endTime a ->
  AnimatedTransform.interpolate a time = Raise AttributeError.
Proof.
  intros Ha [Hs He]. unfold AnimatedTransform.interpolate, AnimatedTransform.Rleb.
  rewrite Ha. cbn [negb orb].
  destruct (Rle_dec time (AnimatedTransform.startTime a)); [lra|].
  destruct (Rle_dec (AnimatedTransform.endTime a) time); [lra|].
  unfold Transform.pydiv.
  destruct (Req_dec_T _ 0); [lra|]. reflexivity.
Qed.

(** C5.  For an instance whose flag is [startTransform != endTransform]
    and whose times satisfy [startTime < endTime]: [interpolate(t)] returns
    [startTransform] when the instance is not animated or
    [t <= startTime]; for [t >= endTime] it returns a transform equal to
    [endTransform] under [==], which is [endTransform] itself when the
    instance is animated; a non-animated instance gives [startTransform] at
    every time. *)
Theorem C5_interpolate_outside_range (a : AnimatedTransform.t) (time : R) :
  AnimatedTransform.animated a
    = Transform.ne (AnimatedTransform.startTransform a)
                   (AnimatedTransform.endTransform a) ->
  AnimatedTransform.startTime a < AnimatedTransform.endTime a ->
  (AnimatedTransform.animated a = false \/ time <= AnimatedTransform.startTime a ->
   AnimatedTransform.interpolate a time
     = Ok (Some (AnimatedTransform.startTransform a))) /\
  (AnimatedTransform.endTime a <= time ->
   exists r, AnimatedTransform.interpolate a time = Ok (Some r) /\
     Transform.eq r (AnimatedTransform.endTransform a) = true /\
     (AnimatedTransform.animated a = true ->
      r = AnimatedTransform.endTransform a)) /\
  (AnimatedTransform.animated a = false ->
   forall t' : R, AnimatedTransform.interpolate a t'
     = Ok (Some (AnimatedTransform.startTransform a))).
Proof.
  intros Hflag Hlt. split; [apply interpolate_start|]. split.
  - intros He.
    destruct (AnimatedTransform.animated a) eqn:Ha.
    + exists (AnimatedTransform.endTransform a). split; [|split].
      * apply interpolate_end; [exact Ha|lra|exact He].
      * apply array_equal_refl.
      * reflexivity.
    + exists (AnimatedTransform.startTransform a). split; [|split].
      * apply interpolate_start. left; exact Ha.
      * unfold Transform.ne in Hflag. unfold Transform.eq.
        destruct (array_equal _ _); [reflexivity|discriminate Hflag].
      * intros H; discriminate H.
  - intros Ha t'. apply interpolate_start. left; exact Ha.
Qed.

Lemma C5_witness :
  let a := AnimatedTransform.new_self T_id 0 T_shift 1 in
  AnimatedTransform.interpolate a 0 = Ok (Some T_id) /\
  (exists r, AnimatedTransform.interpolate a 1 = Ok (Some r) /\
     Transform.eq r T_shift = true /\
     (AnimatedTransform.animated a = true -> r = T_shift)) /\
  forall t' : R,
    AnimatedTransform.interpolate
      (AnimatedTransform.new_self T_shift 0 T_shift 1) t' = Ok (Some T_shift).
Proof.
  intros a.
  assert (Hlt : (0 : R) < 1) by lra.
  destruct (C5_interpolate_outside_range a 0 eq_refl Hlt) as (H0 & _).
  destruct (C5_interpolate_outside_range a 1 eq_refl Hlt) as (_ & H1 & _).
  destruct (C5_interpolate_outside_range
              (AnimatedTransform.new_self T_shift 0 T_shift 1) 0 eq_refl Hlt)
    as (_ & _ & H3).
  split; [|split].
  - apply H0. right. cbn. lra.
  - apply H1. cbn. lra.
  - apply H3. apply animated_shift_shift.
Defined.

(** C6.  At a time strictly inside the range of an animated instance
    [interpolate] returns no Transform: reading [self.T], which [__init__]
    never stores, raises [AttributeError]. *)
Theorem C6_interpolate_inside_raises :
  let a := AnimatedTransform.new_self T_id 0 T_shift 1 in
  AnimatedTransform.animated a = true /\
  AnimatedTransform.startTime a < 1 / 2 < AnimatedTransform.endTime a /\
  AnimatedTransform.interpolate a (1 / 2) = Raise AttributeError.
Proof.
  intros a.
  assert (Ha : AnimatedTransform.animated a = true) by apply animated_id_shift.
  assert (Ht : AnimatedTransform.startTime a < 1 / 2 < AnimatedTransform.endTime a)
    by (cbn; lra).
  split; [exact Ha|]. split; [exact Ht|].
  apply interpolate_between; assumption.
Qed.

(** ** Quaternions *)

(** Even on a Transform that holds the 3x3 array of [toTransform] (built
    through the two-matrix constructor, which accepts it), [fromTransform]
    does not give back the quaternion: for the unit quaternion with fields
    (w, x, y, z) = (4/5, 0, 0, 3/5) it returns (-4/5, 0, 0, 3/5), which is
    neither [q] nor [-q]. *)
Lemma fromTransform_of_toTransform_m :
  let q := quaternion.np_quaternion (4 / 5) 0 0 (3 / 5) in
  let m := quat.toTransform_m q in
  quat.Dot q q = 1 /\
  Transform.init (Some m) (Some (transpose m)) = Ok (Transform.mk m (transpose m)) /\
  quat.fromTransform (OTransform (Transform.mk m (transpose m)))
    = Ok (quaternion.np_quaternion (- (4 / 5)) 0 0 (3 / 5)).
Proof.
  intros q m. split; [unfold quat.Dot; cbn; lra|]. split; [reflexivity|].
  assert (Hs : sqrt (36 / 25) = 6 / 5) by (apply sqrt_lem_1; lra).
  unfold quat.fromTransform, m, q, quat.toTransform_m. py_eval.
  match goal with
  | |- context [Rlt_dec 0 ?tr] =>
      replace tr with (11 / 25) by lra;
      destruct (Rlt_dec 0 (11 / 25)) as [_|H]; [|lra]
  end.
  replace (11 / 25 + 1) with (36 / 25) by lra. rewrite Hs.
  by_components.
Qed.

(** C7.  [toTransform] hands a 3x3 array to [Transform(m)], whose shape test
    raises [TypeError]: for every quaternion the round trip raises and yields
    no quaternion. *)
Theorem C7_roundtrip_raises (q : quaternion.quaternion) :
  quat.toTransform q = Raise TypeError /\ roundtrip q = Raise TypeError.
Proof.
  assert (H : quat.toTransform q = Raise TypeError) by reflexivity.
  split; [exact H|]. unfold roundtrip. rewrite H. reflexivity.
Qed.

(** ** Transform: has_scale and bounding boxes *)

Ltac tr_eval :=
  unfold T_id, T_shift, T_scale211, T_rotz90, T_shear, T_mismatch, Rz90,
         unit_box, diag4, mk4;
  py_eval; unfold ne_unity, EPS; rdec.

Lemma rotate_z_90 : Transform.rotate_z 90 = Ok T_rotz90.
Proof.
  unfold Transform.rotate_z, Transform.deg2rad.
  replace (90 * (PI / 180)) with (PI / 2) by lra.
  rewrite sin_PI2, cos_PI2.
  unfold T_rotz90, Rz90, mk4. py_eval. by_components.
Qed.

(** C8.  On the quarter turn about z, a pure rotation whose three axis
    scale factors are 1, [has_scale] returns true: it squares the diagonal
    entries of [m] (here [m[0][0] = 0]) instead of measuring the images of
    the basis vectors.  On a shear whose second axis has squared scale
    factor 2 it returns false. *)
Theorem C8_has_scale_reads_diagonal :
  Transform.rotate_z 90 = Ok T_rotz90 /\
  axis_scale_sq (Transform.m T_rotz90) 0 = 1 /\
  axis_scale_sq (Transform.m T_rotz90) 1 = 1 /\
  axis_scale_sq (Transform.m T_rotz90) 2 = 1 /\
  Transform.has_scale T_rotz90 = Ok true /\
  axis_scale_sq (Transform.m T_shear) 1 = 2 /\
  Transform.has_scale T_shear = Ok false.
Proof.
  split; [exact rotate_z_90|].
  unfold axis_scale_sq, entry.
  repeat split; tr_eval; try reflexivity; lra.
Qed.

(** C2.  The box returned for the quarter turn about z applied to the unit
    box has corners (0, 0, 0) and (-1, 1, 1); the point (0, 1, 0) of the
    unit box is sent to (-1, 0, 0), which is outside the returned box. *)
Theorem C2_bbox_of_rotation_misses_points :
  Transform.call_BBox T_rotz90 unit_box
    = Ok (mkBBox (mkPoint 0 0 0) (mkPoint (-1) 1 1)) /\
  inside (mkPoint 0 1 0) unit_box /\
  Transform.call_Point T_rotz90 (mkPoint 0 1 0) = Ok (mkPoint (-1) 0 0) /\
  ~ inside (mkPoint (-1) 0 0) (mkBBox (mkPoint 0 0 0) (mkPoint (-1) 1 1)).
Proof.
  split; [tr_eval; by_components|].
  split; [unfold inside, unit_box; cbn; lra|].
  split; [tr_eval; by_components|].
  unfold inside; cbn; lra.
Qed.

(** ** AnimatedTransform: motion_bounds *)

Lemma motion_bounds_not_animated (a : AnimatedTransform.t) (b : BBox)
    (useInv : bool) :
  AnimatedTransform.animated a = false ->
  AnimatedTransform.motion_bounds a b useInv = Raise NameError.
Proof.
  intros Ha. unfold AnimatedTransform.motion_bounds. rewrite Ha. reflexivity.
Qed.

Lemma seq_128 : seq 0 128 = (0 :: 1 :: seq 2 126)%nat.
Proof. reflexivity. Qed.

Lemma motion_loop_cons (a : AnimatedTransform.t) (b : BBox) (u : bool)
    (ret : option BBox) (i : nat) (rest : list nat) :
  AnimatedTransform.motion_loop a b u ret (i :: rest) =
    (ret' <- AnimatedTransform.motion_step a b u ret i ;;
     AnimatedTransform.motion_loop a b u ret' rest).
Proof. reflexivity. Qed.

Lemma motion_bounds_animated_id_shift (useInv : bool) :
  AnimatedTransform.motion_bounds
    (AnimatedTransform.new_self T_id 0 T_shift 1) unit_box useInv
  = Raise AttributeError.
Proof.
  set (a := AnimatedTransform.new_self T_id 0 T_shift 1).
  assert (Ha : AnimatedTransform.animated a = true) by apply animated_id_shift.
  assert (H0 : exists r, AnimatedTransform.motion_step a unit_box useInv None 0
                         = Ok r).
  { unfold AnimatedTransform.motion_step.
    rewrite interpolate_start
      by (right; unfold Lerp; cbn [INR AnimatedTransform.startTime
            AnimatedTransform.endTime AnimatedTransform.new_self a]; lra).
    cbn [bind].
    change (AnimatedTransform.startTransform a) with T_id.
    destruct useInv; cbn [bind]; eexists; tr_eval; reflexivity. }
  assert (H1 : forall r, AnimatedTransform.motion_step a unit_box useInv r 1
               = Raise AttributeError).
  { intros r. unfold AnimatedTransform.motion_step.
    rewrite interpolate_between; [reflexivity|exact Ha|].
    unfold Lerp; cbn [INR AnimatedTransform.startTime
            AnimatedTransform.endTime AnimatedTransform.new_self a]. lra. }
  unfold AnimatedTransform.motion_bounds.
  rewrite Ha, seq_128.
  cbv beta iota delta [negb].
  rewrite motion_loop_cons.
  destruct H0 as [r H0]. rewrite H0.
  cbv beta iota delta [bind].
  rewrite motion_loop_cons, H1.
  reflexivity.
Qed.

(** C9.  For a non-animated instance [motion_bounds] raises [NameError],
    with [useInv] false as with [useInv] true: it reads the unbound name
    [startTransform]; the statement that reads it applies [inverse()] whatever
    [useInv] is, and the inverse of the shift by (1, 0, 0) sends the unit box
    to [-1, 0] x [0, 1] x [0, 1], not to the box [1, 2] x [0, 1] x [0, 1] of
    the direct application.  For an animated instance the second sample
    time lies strictly inside the range and [interpolate] raises
    [AttributeError]. *)
Theorem C9_motion_bounds_raises :
  let a := AnimatedTransform.new_self T_shift 0 T_shift 1 in
  AnimatedTransform.animated a = false /\
  AnimatedTransform.motion_bounds a unit_box false = Raise NameError /\
  AnimatedTransform.motion_bounds a unit_box true = Raise NameError /\
  Transform.call_BBox T_shift unit_box
    = Ok (mkBBox (mkPoint 1 0 0) (mkPoint 2 1 1)) /\
  (ti <- Transform.inverse T_shift ;; Transform.call_BBox ti unit_box)
    = Ok (mkBBox (mkPoint (-1) 0 0) (mkPoint 0 1 1)) /\
  forall useInv : bool,
    AnimatedTransform.motion_bounds
      (AnimatedTransform.new_self T_id 0 T_shift 1) unit_box useInv
    = Raise AttributeError.
Proof.
  intros a.
  assert (Ha : AnimatedTransform.animated a = false)
    by apply animated_shift_shift.
  split; [exact Ha|].
  split; [apply motion_bounds_not_animated; exact Ha|].
  split; [apply motion_bounds_not_animated; exact Ha|].
  split; [tr_eval; by_components|].
  split; [tr_eval; by_components|].
  exact motion_bounds_animated_id_shift.
Qed.

(** * Further properties of the transform algebra *)

(** An affine 4x4 matrix: the last row is (0, 0, 0, 1). *)
Definition affine (a : ndarray) : Prop :=
  exists a00 a01 a02 a03 a10 a11 a12 a13 a20 a21 a22 a23,
    a = mk4 a00 a01 a02 a03 a10 a11 a12 a13 a20 a21 a22 a23 0 0 0 1.

Lemma ne_unity_one (v : R) : v = 1 -> ne_unity v = false.
Proof.
  intros ->. unfold ne_unity, EPS. rdec; reflexivity.
Qed.

(** ** Named constructors *)

(** X1.  [translate(delta)] always succeeds; the stored [mInv] is the
    matrix inverse of [m]; the transform moves every point by [delta] and
    leaves every vector and every normal unchanged. *)
Theorem translate_shifts_points_only (delta : Vector) :
  exists t, Transform.translate delta = Ok t /\
    is_inverse (Transform.m t) (Transform.mInv t) /\
    (forall p, Transform.call_Point t p = Ok (Point_add p delta)) /\
    (forall v, Transform.call_Vector t v = Ok v) /\
    (forall n, Transform.call_Normal t n = Ok n).
Proof.
  destruct delta as [dx dy dz].
  eexists. split; [reflexivity|]. split; [|split; [|split]].
  - unfold is_inverse. py_eval. repeat split; by_components.
  - intros [x y z]. py_eval.
    rewrite ne_unity_one by lra. unfold Point_add. py_eval. by_components.
  - intros [x y z]. py_eval. by_components.
  - intros [x y z]. py_eval. by_components.
Qed.

(** X2.  [scale(x, y, z)] raises [ZeroDivisionError] when a factor is
    zero.  With three non-zero factors it succeeds, the stored [mInv] is
    the matrix inverse of [m], vectors are multiplied by the factors and
    normals are divided by them. *)
Theorem scale_inverse_or_division_error (x y z : R) :
  (x = 0 \/ y = 0 \/ z = 0 ->
   Transform.scale x y z = Raise ZeroDivisionError) /\
  (x <> 0 -> y <> 0 -> z <> 0 ->
   exists t, Transform.scale x y z = Ok t /\
     is_inverse (Transform.m t) (Transform.mInv t) /\
     (forall v, Transform.call_Vector t v
        = Ok (mkVector (x * vx v) (y * vy v) (z * vz v))) /\
     (forall n, Transform.call_Normal t n
        = Ok (mkNormal (nx n / x) (ny n / y) (nz n / z)))).
Proof.
  unfold Transform.scale, Transform.pydiv. split.
  - intros H.
    destruct (Req_dec_T x 0); [reflexivity|].
    destruct (Req_dec_T y 0); [reflexivity|].
    destruct (Req_dec_T z 0); [reflexivity|].
    exfalso; tauto.
  - intros Hx Hy Hz.
    destruct (Req_dec_T x 0); [contradiction|].
    destruct (Req_dec_T y 0); [contradiction|].
    destruct (Req_dec_T z 0); [contradiction|].
    eexists. split; [reflexivity|]. split; [|split].
    + unfold is_inverse. py_eval. repeat split; components; field; assumption.
    + intros [a b c]. py_eval. by_components.
    + intros [a b c]. py_eval. components; field; assumption.
Qed.

Lemma scale_witness :
  Transform.scale 0 1 1 = Raise ZeroDivisionError /\
  exists t, Transform.scale 2 3 4 = Ok t /\
    is_inverse (Transform.m t) (Transform.mInv t).
Proof.
  destruct (scale_inverse_or_division_error 0 1 1) as [H0 _].
  destruct (scale_inverse_or_division_error 2 3 4) as [_ H1].
  split; [apply H0; left; reflexivity|].
  destruct H1 as (t & Ht & Hi & _); [lra|lra|lra|].
  exists t. split; assumption.
Defined.

Lemma rotation_inverse_aux (s c : R) (a : ndarray) :
  s * s + c * c = 1 ->
  a = mk4 1 0 0 0  0 c (- s) 0  0 s c 0  0 0 0 1 \/
  a = mk4 c 0 s 0  0 1 0 0  (- s) 0 c 0  0 0 0 1 \/
  a = mk4 c (- s) 0 0  s c 0 0  0 0 1 0  0 0 0 1 ->
  is_inverse a (transpose a) /\ det (block a 3 3) = 1.
Proof.
  intros H [-> | [-> | ->]]; unfold is_inverse, mk4; py_eval;
    (split; [repeat split; components; nra | nra]).
Qed.

Lemma sin_cos_1 (x : R) : sin x * sin x + cos x * cos x = 1.
Proof. pose proof (sin2_cos2 x) as H. unfold Rsqr in H. exact H. Qed.

(** X3.  For every angle, [rotate_x], [rotate_y] and [rotate_z] succeed,
    the transpose they store as [mInv] is the matrix inverse of [m], and
    none of the three swaps handedness. *)
Theorem rotations_store_their_inverse (angle : R) :
  exists tx ty tz,
    Transform.rotate_x angle = Ok tx /\
    Transform.rotate_y angle = Ok ty /\
    Transform.rotate_z angle = Ok tz /\
    is_inverse (Transform.m tx) (Transform.mInv tx) /\
    is_inverse (Transform.m ty) (Transform.mInv ty) /\
    is_inverse (Transform.m tz) (Transform.mInv tz) /\
    Transform.swaps_handedness tx = Ok false /\
    Transform.swaps_handedness ty = Ok false /\
    Transform.swaps_handedness tz = Ok false.
Proof.
  pose proof (sin_cos_1 (Transform.deg2rad angle)) as H.
  unfold Transform.rotate_x, Transform.rotate_y, Transform.rotate_z.
  set (s := sin (Transform.deg2rad angle)) in *.
  set (c := cos (Transform.deg2rad angle)) in *.
  do 3 eexists.
  split; [reflexivity|]. split; [reflexivity|]. split; [reflexivity|].
  cbn [Transform.m Transform.mInv].
  assert (Hx := rotation_inverse_aux s c _ H (or_introl eq_refl)).
  assert (Hy := rotation_inverse_aux s c _ H (or_intror (or_introl eq_refl))).
  assert (Hz := rotation_inverse_aux s c _ H (or_intror (or_intror eq_refl))).
  destruct Hx as [Hx Dx], Hy as [Hy Dy], Hz as [Hz Dz].
  split; [exact Hx|]. split; [exact Hy|]. split; [exact Hz|].
  unfold Transform.swaps_handedness. cbn [Transform.m].
  repeat split.
  - change (shape_is _ _ _) with true. cbv iota.
    change (upd2 _ _ _ _) with (mk4 1 0 0 0  0 c (- s) 0  0 s c 0  0 0 0 1).
    rewrite Dx. rdec; reflexivity.
  - change (shape_is _ _ _) with true. cbv iota.
    change (upd2 _ _ _ _) with (mk4 c 0 s 0  0 1 0 0  (- s) 0 c 0  0 0 0 1).
    rewrite Dy. rdec; reflexivity.
  - change (shape_is _ _ _) with true. cbv iota.
    change (upd2 _ _ _ _) with (mk4 c (- s) 0 0  s c 0 0  0 0 1 0  0 0 0 1).
    rewrite Dz. rdec; reflexivity.
Qed.

(** ** Normals against vectors *)

(** X4.  When the stored [mInv] is the transpose of a 4x4 [m], as for the
    rotations, a normal is transformed to the same components as the vector
    with its coordinates. *)
Theorem normal_as_vector_under_rotation (t : Transform.t) (x y z : R) :
  shape_is (Transform.m t) 4 4 = true ->
  Transform.mInv t = transpose (Transform.m t) ->
  exists r0 r1 r2,
    Transform.call_Vector t (mkVector x y z) = Ok (mkVector r0 r1 r2) /\
    Transform.call_Normal t (mkNormal x y z) = Ok (mkNormal r0 r1 r2).
Proof.
  destruct t as [a ai]. cbn [Transform.m Transform.mInv]. intros Ha ->.
  as_mk4 a Ha. do 3 eexists. split; reflexivity.
Qed.

Lemma normal_as_vector_witness :
  exists r0 r1 r2,
    Transform.call_Vector T_rotz90 (mkVector 1 2 3) = Ok (mkVector r0 r1 r2) /\
    Transform.call_Normal T_rotz90 (mkNormal 1 2 3) = Ok (mkNormal r0 r1 r2).
Proof.
  apply (normal_as_vector_under_rotation T_rotz90 1 2 3); reflexivity.
Defined.

(** ** Inverse and composition *)

Lemma is_inverse_sym (a b : ndarray) : is_inverse a b -> is_inverse b a.
Proof. intros (Ha & Hb & Hab & Hba). repeat split; assumption. Qed.

Lemma shape44_mm (a b : ndarray) :
  shape_is a 4 4 = true -> shape_is b 4 4 = true ->
  shape_is (mm a b) 4 4 = true.
Proof. intros Ha Hb. as_mk4 a Ha. as_mk4 b Hb. reflexivity. Qed.

Lemma dot_raises_ValueError (a b : ndarray) (e : exn) :
  dot a b = Raise e -> e = ValueError.
Proof.
  unfold dot. destruct (forallb _ a); intros H; [discriminate H|].
  injection H as <-. reflexivity.
Qed.

(** X5.  [inverse()] always succeeds and swaps [m] and [mInv]; applied
    twice it gives the transform back, and it keeps "[mInv] is the inverse
    of [m]". *)
Theorem inverse_swaps_and_is_involutive (t : Transform.t) :
  exists ti, Transform.inverse t = Ok ti /\
    Transform.m ti = Transform.mInv t /\
    Transform.mInv ti = Transform.m t /\
    Transform.inverse ti = Ok t /\
    (is_inverse (Transform.m t) (Transform.mInv t) ->
     is_inverse (Transform.m ti) (Transform.mInv ti)).
Proof.
  destruct t as [a ai]. exists (Transform.mk ai a).
  repeat split; try reflexivity; apply is_inverse_sym in H; apply H.
Qed.

Lemma inverse_swaps_witness :
  exists ti, Transform.inverse T_scale211 = Ok ti /\
    Transform.inverse ti = Ok T_scale211 /\
    is_inverse (Transform.m ti) (Transform.mInv ti).
Proof.
  destruct (inverse_swaps_and_is_involutive T_scale211)
    as (ti & H1 & _ & _ & H2 & H3).
  exists ti. split; [exact H1|]. split; [exact H2|].
  apply H3. exact is_inverse_scale211.
Defined.

Lemma mul_4x4 (a b : Transform.t) :
  shape_is (Transform.m a) 4 4 = true ->
  shape_is (Transform.mInv a) 4 4 = true ->
  shape_is (Transform.m b) 4 4 = true ->
  shape_is (Transform.mInv b) 4 4 = true ->
  Transform.mul a b
    = Ok (Transform.mk (mm (Transform.m a) (Transform.m b))
                       (mm (Transform.mInv b) (Transform.mInv a))).
Proof.
  intros Ha Hai Hb Hbi. unfold Transform.mul.
  rewrite (dot4_mm _ _ Ha Hb), (dot4_mm _ _ Hbi Hai). reflexivity.
Qed.

(** X6.  The product of two transforms that each store the inverse of
    their 4x4 matrix succeeds, its [m] is the matrix product, and it again
    stores the inverse of its matrix. *)
Theorem mul_keeps_the_inverse (a b : Transform.t) :
  is_inverse (Transform.m a) (Transform.mInv a) ->
  is_inverse (Transform.m b) (Transform.mInv b) ->
  exists c, Transform.mul a b = Ok c /\
    Transform.m c = mm (Transform.m a) (Transform.m b) /\
    is_inverse (Transform.m c) (Transform.mInv c).
Proof.
  intros Ha Hb.
  destruct (is_inverse_mm _ _ Ha) as [Ea Ea'].
  destruct (is_inverse_mm _ _ Hb) as [Eb Eb'].
  destruct Ha as (Sa & Sai & _). destruct Hb as (Sb & Sbi & _).
  eexists. split; [apply mul_4x4; assumption|].
  cbn [Transform.m Transform.mInv]. split; [reflexivity|].
  assert (Sab := shape44_mm _ _ Sa Sb).
  assert (Sba := shape44_mm _ _ Sbi Sai).
  unfold is_inverse. split; [exact Sab|]. split; [exact Sba|].
  rewrite (dot4_mm _ _ Sab Sba), (dot4_mm _ _ Sba Sab). split; f_equal.
  - rewrite (mm_assoc4 _ _ _ Sa Sb Sba).
    rewrite <- (mm_assoc4 _ _ _ Sb Sbi Sai), Eb, (mm_eye4_l _ Sai). exact Ea.
  - rewrite (mm_assoc4 _ _ _ Sbi Sai Sab).
    rewrite <- (mm_assoc4 _ _ _ Sai Sa Sb), Ea', (mm_eye4_l _ Sb). exact Eb'.
Qed.

Lemma mul_keeps_the_inverse_witness :
  exists c, Transform.mul T_shift T_scale211 = Ok c /\
    Transform.m c = mm (Transform.m T_shift) (Transform.m T_scale211) /\
    is_inverse (Transform.m c) (Transform.mInv c).
Proof.
  apply (mul_keeps_the_inverse T_shift T_scale211).
  - unfold is_inverse, T_shift, mk4. py_eval. repeat split; by_components.
  - exact is_inverse_scale211.
Defined.

(** X7.  A transform that stores the inverse of its matrix, multiplied by
    its [inverse()], is the identity transform: [m] and [mInv] are the
    identity matrix and [is_identity] is true. *)
Theorem mul_by_inverse_is_identity (t : Transform.t) :
  is_inverse (Transform.m t) (Transform.mInv t) ->
  exists ti i, Transform.inverse t = Ok ti /\
    Transform.mul t ti = Ok i /\
    Transform.m i = eye4 /\ Transform.mInv i = eye4 /\
    Transform.is_identity i = true.
Proof.
  intros H. destruct (is_inverse_mm _ _ H) as [E _].
  destruct H as (Sa & Sai & _). destruct t as [a ai].
  cbn [Transform.m Transform.mInv] in *.
  exists (Transform.mk ai a), (Transform.mk eye4 eye4).
  split; [reflexivity|]. split.
  - rewrite mul_4x4 by assumption. cbn [Transform.m Transform.mInv].
    rewrite E. reflexivity.
  - split; [reflexivity|]. split; [reflexivity|].
    unfold Transform.is_identity. apply array_equal_refl.
Qed.

Lemma mul_by_inverse_witness :
  exists ti i, Transform.inverse T_scale211 = Ok ti /\
    Transform.mul T_scale211 ti = Ok i /\
    Transform.m i = eye4 /\ Transform.mInv i = eye4 /\
    Transform.is_identity i = true.
Proof.
  apply (mul_by_inverse_is_identity T_scale211). exact is_inverse_scale211.
Defined.

(** X8.  For all transforms, [(a * b).inverse()] and
    [b.inverse() * a.inverse()] are the same: the same transform, or both
    raise [ValueError] when the shapes do not fit. *)
Theorem inverse_of_product (a b : Transform.t) :
  (c <- Transform.mul a b ;; Transform.inverse c)
  = (bi <- Transform.inverse b ;; ai <- Transform.inverse a ;;
     Transform.mul bi ai).
Proof.
  destruct a as [a ai], b as [b bi].
  unfold Transform.inverse, Transform.mul. cbn [Transform.init bind Transform.m Transform.mInv].
  destruct (dot a b) as [ab|e1] eqn:E1; destruct (dot bi ai) as [ba|e2] eqn:E2;
    cbn [bind Transform.init Transform.m Transform.mInv]; try reflexivity.
  apply dot_raises_ValueError in E1. apply dot_raises_ValueError in E2.
  subst. reflexivity.
Qed.

(** X9.  The product of transforms holding 4x4 matrices is
    associative. *)
Theorem mul_is_associative (a b c : Transform.t) :
  shape_is (Transform.m a) 4 4 = true -> shape_is (Transform.mInv a) 4 4 = true ->
  shape_is (Transform.m b) 4 4 = true -> shape_is (Transform.mInv b) 4 4 = true ->
  shape_is (Transform.m c) 4 4 = true -> shape_is (Transform.mInv c) 4 4 = true ->
  (ab <- Transform.mul a b ;; Transform.mul ab c)
  = (bc <- Transform.mul b c ;; Transform.mul a bc).
Proof.
  intros Ha Hai Hb Hbi Hc Hci.
  rewrite (mul_4x4 a b), (mul_4x4 b c) by assumption. cbn [bind].
  rewrite !mul_4x4; cbn [Transform.m Transform.mInv];
    try assumption; try (apply shape44_mm; assumption).
  rewrite (mm_assoc4 _ _ _ Ha Hb Hc), (mm_assoc4 _ _ _ Hci Hbi Hai).
  reflexivity.
Qed.

Lemma mul_is_associative_witness :
  (ab <- Transform.mul T_shift T_rotz90 ;; Transform.mul ab T_scale211)
  = (bc <- Transform.mul T_rotz90 T_scale211 ;; Transform.mul T_shift bc).
Proof.
  apply (mul_is_associative T_shift T_rotz90 T_scale211); reflexivity.
Defined.

(** ** Application *)

(** X10.  A product applies its right factor first: when the right factor
    is affine, [(a * b)(v)] is [a(b(v))] for every vector [v]; when both
    factors are affine, [(a * b)(p)] is [a(b(p))] for every point [p]. *)
Theorem product_applies_right_to_left (a b c : Transform.t) :
  shape_is (Transform.m a) 4 4 = true ->
  affine (Transform.m b) ->
  Transform.mul a b = Ok c ->
  (forall v, Transform.call_Vector c v
     = (w <- Transform.call_Vector b v ;; Transform.call_Vector a w)) /\
  (affine (Transform.m a) ->
   forall p, Transform.call_Point c p
     = (q <- Transform.call_Point b p ;; Transform.call_Point a q)).
Proof.
  intros Ha Hb Hc.
  assert (Sb : shape_is (Transform.m b) 4 4 = true).
  { destruct Hb as (?&?&?&?&?&?&?&?&?&?&?&?&->). reflexivity. }
  unfold Transform.mul in Hc.
  rewrite (dot4_mm _ _ Ha Sb) in Hc. cbn [bind] in Hc.
  destruct (dot (Transform.mInv b) (Transform.mInv a)) as [ci|e];
    [|discriminate Hc].
  cbn [bind Transform.init] in Hc. injection Hc as <-.
  destruct a as [a ai], b as [b bi]. cbn [Transform.m] in *.
  destruct Hb as (b00&b01&b02&b03&b10&b11&b12&b13&b20&b21&b22&b23&->).
  split.
  - intros [x y z]. as_mk4 a Ha.
    unfold mm, mk4. py_eval. by_components.
  - intros (a00&a01&a02&a03&a10&a11&a12&a13&a20&a21&a22&a23&->) [x y z].
    unfold mm, mk4. py_eval.
    repeat (rewrite ne_unity_one by lra; py_eval). by_components.
Qed.

Lemma affine_rotz90 : affine (Transform.m T_rotz90).
Proof. unfold affine, T_rotz90, Rz90. cbn [Transform.m]. repeat eexists. Qed.

Lemma product_applies_witness :
  Transform.call_Vector (Transform.mk (mm (Transform.m T_shift) (Transform.m T_rotz90))
                                      (mm (Transform.mInv T_rotz90) (Transform.mInv T_shift)))
                        (mkVector 1 0 0)
  = (w <- Transform.call_Vector T_rotz90 (mkVector 1 0 0) ;;
     Transform.call_Vector T_shift w).
Proof.
  apply (product_applies_right_to_left T_shift T_rotz90);
    [reflexivity|exact affine_rotz90|reflexivity].
Defined.

(** X11.  An affine transform sends the point [p + v] to the image of [p]
    plus the image of the vector [v]. *)
Theorem affine_point_plus_vector (t : Transform.t) (p : Point) (v : Vector) :
  affine (Transform.m t) ->
  exists p' v',
    Transform.call_Point t p = Ok p' /\
    Transform.call_Vector t v = Ok v' /\
    Transform.call_Point t (Point_add p v) = Ok (Point_add p' v').
Proof.
  destruct t as [a ai]. cbn [Transform.m].
  intros (a00&a01&a02&a03&a10&a11&a12&a13&a20&a21&a22&a23&->).
  destruct p as [x y z], v as [u w s]. unfold mk4. py_eval.
  rewrite !ne_unity_one by lra.
  do 2 eexists. split; [reflexivity|]. split; [reflexivity|].
  py_eval. by_components.
Qed.

Lemma affine_shift : affine (Transform.m T_shift).
Proof. unfold affine, T_shift. cbn [Transform.m]. repeat eexists. Qed.

Lemma affine_point_plus_vector_witness :
  exists p' v',
    Transform.call_Point T_shift (mkPoint 1 2 3) = Ok p' /\
    Transform.call_Vector T_shift (mkVector 1 1 1) = Ok v' /\
    Transform.call_Point T_shift (Point_add (mkPoint 1 2 3) (mkVector 1 1 1))
      = Ok (Point_add p' v').
Proof.
  apply (affine_point_plus_vector T_shift). exact affine_shift.
Defined.

(** X12.  For an affine transform whose linear 3x3 block has no negative
    entry (translations, positive scales and their products), the box
    returned for [b] contains the image of every point of [b]. *)
Theorem bbox_covers_when_entries_nonnegative (t : Transform.t) (b : BBox)
    (p : Point) :
  affine (Transform.m t) ->
  (forall i j, (i < 3)%nat -> (j < 3)%nat -> 0 <= entry (Transform.m t) i j) ->
  inside p b ->
  exists b' p',
    Transform.call_BBox t b = Ok b' /\
    Transform.call_Point t p = Ok p' /\
    inside p' b'.
Proof.
  destruct t as [a ai]. cbn [Transform.m].
  intros (a00&a01&a02&a03&a10&a11&a12&a13&a20&a21&a22&a23&->) Hpos Hin.
  assert (H00 := Hpos 0%nat 0%nat ltac:(lia) ltac:(lia)).
  assert (H01 := Hpos 0%nat 1%nat ltac:(lia) ltac:(lia)).
  assert (H02 := Hpos 0%nat 2%nat ltac:(lia) ltac:(lia)).
  assert (H10 := Hpos 1%nat 0%nat ltac:(lia) ltac:(lia)).
  assert (H11 := Hpos 1%nat 1%nat ltac:(lia) ltac:(lia)).
  assert (H12 := Hpos 1%nat 2%nat ltac:(lia) ltac:(lia)).
  assert (H20 := Hpos 2%nat 0%nat ltac:(lia) ltac:(lia)).
  assert (H21 := Hpos 2%nat 1%nat ltac:(lia) ltac:(lia)).
  assert (H22 := Hpos 2%nat 2%nat ltac:(lia) ltac:(lia)).
  clear Hpos. unfold entry, mk4 in *. cbn [nth] in *.
  destruct b as [[lx ly lz] [hx hy hz]], p as [x y z].
  unfold inside in Hin. cbn [px py pz pMin pMax] in Hin.
  destruct Hin as ([Hx1 Hx2] & [Hy1 Hy2] & [Hz1 Hz2]).
  unfold mk4. py_eval. rewrite !ne_unity_one by lra.
  do 2 eexists. split; [reflexivity|]. split; [reflexivity|].
  unfold inside. py_eval.
  repeat split; nra.
Qed.

Lemma bbox_covers_witness :
  exists b' p',
    Transform.call_BBox T_shift unit_box = Ok b' /\
    Transform.call_Point T_shift (mkPoint (1 / 2) 1 0) = Ok p' /\
    inside p' b'.
Proof.
  apply (bbox_covers_when_entries_nonnegative T_shift).
  - exact affine_shift.
  - intros i j Hi Hj. unfold entry, T_shift, mk4. cbn [Transform.m].
    destruct i as [|[|[|i]]]; [| | |lia];
      (destruct j as [|[|[|j]]]; [| | |lia]); cbn [nth]; lra.
  - unfold inside, unit_box. cbn [px py pz pMin pMax]. lra.
Defined.

(** ** Predicates on a Transform *)

(** X13.  On a diagonal matrix the squared axis scale factors are the
    squares of the diagonal entries, and [has_scale] is true exactly when
    one of them differs from 1 beyond the tolerance. *)
Theorem has_scale_on_diagonal (t : Transform.t) (a b c d : R) :
  Transform.m t = diag4 a b c d ->
  axis_scale_sq (Transform.m t) 0 = a * a /\
  axis_scale_sq (Transform.m t) 1 = b * b /\
  axis_scale_sq (Transform.m t) 2 = c * c /\
  Transform.has_scale t
    = Ok (ne_unity (a * a) || ne_unity (b * b) || ne_unity (c * c)).
Proof.
  destruct t as [m mi]. cbn [Transform.m]. intros ->.
  unfold axis_scale_sq, entry, diag4, mk4. cbn [nth].
  repeat split; try lra.
  unfold Transform.has_scale, diag4, mk4. py_eval.
  destruct (ne_unity (a * a)); [reflexivity|].
  destruct (ne_unity (b * b)); reflexivity.
Qed.

Lemma has_scale_on_diagonal_witness :
  Transform.has_scale T_scale211
    = Ok (ne_unity (2 * 2) || ne_unity (1 * 1) || ne_unity (1 * 1)).
Proof.
  apply (has_scale_on_diagonal T_scale211 2 1 1 1). reflexivity.
Defined.

(** X14.  On a diagonal matrix [swaps_handedness] is true when the product
    of the first three diagonal entries is negative and false otherwise. *)
Theorem swaps_handedness_on_diagonal (t : Transform.t) (a b c d : R) :
  Transform.m t = diag4 a b c d ->
  (a * b * c < 0 -> Transform.swaps_handedness t = Ok true) /\
  (0 <= a * b * c -> Transform.swaps_handedness t = Ok false).
Proof.
  destruct t as [m mi]. cbn [Transform.m]. intros ->.
  unfold Transform.swaps_handedness. cbn [Transform.m].
  change (shape_is _ _ _) with true. cbv iota.
  assert (E : det (block (diag4 a b c d) 3 3) = a * b * c).
  { unfold diag4, mk4. py_eval. ring. }
  rewrite E. split; intros H; destruct (Rlt_dec (a * b * c) 0);
    try reflexivity; lra.
Qed.

Lemma swaps_handedness_witness :
  Transform.swaps_handedness
    (Transform.mk (diag4 (-1) 1 1 1) (diag4 (-1) 1 1 1)) = Ok true /\
  Transform.swaps_handedness T_scale211 = Ok false.
Proof.
  destruct (swaps_handedness_on_diagonal
              (Transform.mk (diag4 (-1) 1 1 1) (diag4 (-1) 1 1 1)) (-1) 1 1 1
              eq_refl) as [H1 _].
  destruct (swaps_handedness_on_diagonal T_scale211 2 1 1 1 eq_refl) as [_ H2].
  split; [apply H1; lra|apply H2; lra].
Defined.

Lemma Reqb_true (u v : R) : Reqb u v = true <-> u = v.
Proof.
  unfold Reqb. destruct (Req_dec_T u v); split; intros H;
    [assumption|reflexivity|discriminate H|contradiction].
Qed.

Lemma list_eqb_true {A : Type} (eqb : A -> A -> bool) :
  (forall u v, eqb u v = true <-> u = v) ->
  forall l1 l2, list_eqb eqb l1 l2 = true <-> l1 = l2.
Proof.
  intros Heq. induction l1 as [|u l1 IH]; intros [|v l2]; cbn [list_eqb];
    split; intros H; try reflexivity; try discriminate H.
  - apply andb_prop in H as [H1 H2].
    apply Heq in H1. apply IH in H2. subst. reflexivity.
  - injection H as -> ->. apply andb_true_intro. split.
    + apply Heq. reflexivity.
    + apply IH. reflexivity.
Qed.

Lemma array_equal_true (a b : ndarray) : array_equal a b = true <-> a = b.
Proof.
  unfold array_equal. apply list_eqb_true. intros u v.
  apply list_eqb_true. exact Reqb_true.
Qed.

(** X15.  [==] on transforms holds exactly when the two [m] matrices are
    equal and [!=] is its negation; the stored [mInv] plays no part, so a
    transform equals any transform with the same [m].  [is_identity] holds
    exactly when [m] is the identity matrix. *)
Theorem equality_compares_m_only (t1 t2 : Transform.t) :
  (Transform.eq t1 t2 = true <-> Transform.m t1 = Transform.m t2) /\
  Transform.ne t1 t2 = negb (Transform.eq t1 t2) /\
  (Transform.is_identity t1 = true <-> Transform.m t1 = eye4) /\
  Transform.eq (Transform.mk (Transform.m t1) (Transform.mInv t2)) t1 = true.
Proof.
  unfold Transform.eq, Transform.ne, Transform.is_identity.
  split; [apply array_equal_true|]. split; [reflexivity|].
  split; [apply array_equal_true|]. apply array_equal_refl.
Qed.

Lemma shape33_inv (a : ndarray) :
  shape_is a 3 3 = true ->
  exists a00 a01 a02 a10 a11 a12 a20 a21 a22,
    a = [[a00; a01; a02]; [a10; a11; a12]; [a20; a21; a22]].
Proof.
  unfold shape_is. intros H. apply andb_prop in H as [Hr Hc].
  apply Nat.eqb_eq in Hr.
  destruct a as [|r0 [|r1 [|r2 [|r3 rest]]]]; try discriminate Hr.
  cbn [forallb] in Hc.
  repeat (apply andb_prop in Hc as [?H Hc]).
  repeat match goal with
  | H : (length ?r =? 3)%nat = true |- _ =>
      apply Nat.eqb_eq in H;
      destruct r as [|? [|? [|? [|? ?]]]]; try discriminate H; clear H
  end.
  repeat eexists.
Qed.

(** X16.  A transform holding a 3x3 matrix (accepted by the two-matrix
    constructor) transforms vectors, but applying it to a point raises
    [IndexError]: the translation column [m[0:4, 3]] does not exist. *)
Theorem three_by_three_transforms_vectors_not_points (t : Transform.t)
    (p : Point) (v : Vector) :
  shape_is (Transform.m t) 3 3 = true ->
  Transform.call_Point t p = Raise IndexError /\
  is_ok (Transform.call_Vector t v) = true.
Proof.
  destruct t as [a ai]. cbn [Transform.m]. intros Ha.
  destruct (shape33_inv a Ha) as (a00&a01&a02&a10&a11&a12&a20&a21&a22&->).
  split; reflexivity.
Qed.

Lemma three_by_three_witness :
  let m := quat.toTransform_m (quaternion.np_quaternion 0 0 0 1) in
  Transform.call_Point (Transform.mk m m) (mkPoint 1 2 3) = Raise IndexError /\
  is_ok (Transform.call_Vector (Transform.mk m m) (mkVector 1 2 3)) = true.
Proof.
  intros m.
  apply (three_by_three_transforms_vectors_not_points (Transform.mk m m)).
  reflexivity.
Defined.

(** ** AnimatedTransform *)

(** X17.  [AnimatedTransform(t1, tm1, t2, tm2)] returns an object for no
    arguments: [Decompose] passes an array to [quat.fromTransform], which
    reads its attribute [m].  When [t1.m] is the identity matrix the error
    is [AttributeError]. *)
Theorem AnimatedTransform_is_never_constructed (t1 t2 : Transform.t)
    (tm1 tm2 : R) :
  is_ok (AnimatedTransform.init t1 tm1 t2 tm2) = false /\
  (Transform.m t1 = eye4 ->
   AnimatedTransform.init t1 tm1 t2 tm2 = Raise AttributeError).
Proof.
  rewrite init_unfold. split.
  - pose proof (Decompose_never_returns (Transform.m t1)) as H.
    destruct (AnimatedTransform.Decompose (Transform.m t1));
      [discriminate H|reflexivity].
  - intros ->. rewrite Decompose_eye4. reflexivity.
Qed.

Lemma AnimatedTransform_is_never_constructed_witness :
  AnimatedTransform.init T_id 0 T_shift 1 = Raise AttributeError.
Proof.
  apply (AnimatedTransform_is_never_constructed T_id T_shift 0 1). reflexivity.
Defined.

(** X18.  For an instance with [startTime < endTime], animated or not,
    [motion_bounds] returns no box: it raises for every box and both values
    of [useInv]. *)
Theorem motion_bounds_returns_no_box (a : AnimatedTransform.t) (b : BBox)
    (useInv : bool) :
  AnimatedTransform.startTime a < AnimatedTransform.endTime a ->
  is_ok (AnimatedTransform.motion_bounds a b useInv) = false.
Proof.
  intros Hlt.
  destruct (AnimatedTransform.animated a) eqn:Ha.
  - assert (H1 : forall r, AnimatedTransform.motion_step a b useInv r 1
                           = Raise AttributeError).
    { intros r. unfold AnimatedTransform.motion_step.
      rewrite interpolate_between; [reflexivity|exact Ha|].
      unfold Lerp. cbn [INR]. lra. }
    unfold AnimatedTransform.motion_bounds.
    rewrite Ha, seq_128. cbv beta iota delta [negb].
    rewrite motion_loop_cons.
    destruct (AnimatedTransform.motion_step a b useInv None 0) as [r|e];
      [|reflexivity].
    cbv beta iota delta [bind].
    rewrite motion_loop_cons, H1. reflexivity.
  - rewrite motion_bounds_not_animated by exact Ha. reflexivity.
Qed.

Lemma motion_bounds_returns_no_box_witness :
  is_ok (AnimatedTransform.motion_bounds
           (AnimatedTransform.new_self T_id 0 T_shift 1) unit_box true) = false.
Proof.
  apply (motion_bounds_returns_no_box
           (AnimatedTransform.new_self T_id 0 T_shift 1)).
  cbn [AnimatedTransform.startTime AnimatedTransform.endTime
       AnimatedTransform.new_self]. lra.
Defined.

(** ** Quaternions *)

Import quaternion.

Lemma q_ext (p q : quaternion) :
  w p = w q -> x p = x q -> y p = y q -> z p = z q -> p = q.
Proof. destruct p, q. cbn. intros -> -> -> ->. reflexivity. Qed.

Lemma normalized_unit (q : quaternion) : quat.Dot q q = 1 -> normalized q = q.
Proof.
  intros H. unfold quat.Dot in H.
  assert (Ha : abs q = 1).
  { unfold abs. rewrite H. apply sqrt_1. }
  unfold normalized. rewrite Ha. apply q_ext; cbn; field.
Qed.

(** X19.  For unit quaternions that are not opposite,
    [slerp(0, q1, q2)] is [q1]. *)
Theorem slerp_at_zero (q1 q2 : quaternion) :
  quat.Dot q1 q1 = 1 -> quat.Dot q2 q2 = 1 -> -1 < quat.Dot q1 q2 ->
  quat.slerp 0 q1 q2 = q1.
Proof.
  intros H1 _ _. unfold quat.slerp.
  destruct (Rlt_dec (1 - EPS) (quat.Dot q1 q2)).
  - rewrite <- (normalized_unit q1 H1) at 2. f_equal.
    apply q_ext; cbn; ring.
  - rewrite Rmult_0_r, cos_0, sin_0. apply q_ext; cbn; ring.
Qed.

Lemma slerp_at_zero_witness :
  quat.slerp 0 (np_quaternion 1 0 0 0) (np_quaternion 0 1 0 0)
    = np_quaternion 1 0 0 0.
Proof.
  apply (slerp_at_zero (np_quaternion 1 0 0 0) (np_quaternion 0 1 0 0));
    unfold quat.Dot; cbn; lra.
Defined.

(** X20.  For a unit quaternion [q] and every [t], [slerp(t, q, q)] is
    [q]. *)
Theorem slerp_between_equal (t : R) (q : quaternion) :
  quat.Dot q q = 1 -> quat.slerp t q q = q.
Proof.
  intros H. unfold quat.slerp. rewrite H.
  pose proof EPS_pos as He.
  destruct (Rlt_dec (1 - EPS) 1) as [_|Hn]; [|lra].
  rewrite <- (normalized_unit q H) at 3. f_equal.
  apply q_ext; cbn; ring.
Qed.

Lemma slerp_between_equal_witness :
  quat.slerp (1 / 3) (np_quaternion 0 0 1 0) (np_quaternion 0 0 1 0)
    = np_quaternion 0 0 1 0.
Proof.
  apply (slerp_between_equal (1 / 3) (np_quaternion 0 0 1 0)).
  unfold quat.Dot. cbn. lra.
Defined.

Lemma Dot_bound (q1 q2 : quaternion) :
  quat.Dot q1 q1 = 1 -> quat.Dot q2 q2 = 1 -> -1 <= quat.Dot q1 q2 <= 1.
Proof.
  destruct q1 as [a b c d], q2 as [e f g h]. unfold quat.Dot. cbn.
  intros H1 H2.
  assert (L : (a * e + b * f + c * g + d * h) * (a * e + b * f + c * g + d * h)
              <= 1).
  { replace 1 with ((a * a + b * b + c * c + d * d) * (e * e + f * f + g * g + h * h))
      by (rewrite H1, H2; ring).
    pose proof (Rle_0_sqr (a * f - b * e)). pose proof (Rle_0_sqr (a * g - c * e)).
    pose proof (Rle_0_sqr (a * h - d * e)). pose proof (Rle_0_sqr (b * g - c * f)).
    pose proof (Rle_0_sqr (b * h - d * f)). pose proof (Rle_0_sqr (c * h - d * g)).
    unfold Rsqr in *. nra. }
  split; nra.
Qed.

(** X21.  For unit quaternions that are not opposite,
    [slerp(1, q1, q2)] is [q2]. *)
Theorem slerp_at_one (q1 q2 : quaternion) :
  quat.Dot q1 q1 = 1 -> quat.Dot q2 q2 = 1 -> -1 < quat.Dot q1 q2 ->
  quat.slerp 1 q1 q2 = q2.
Proof.
  intros H1 H2 Hopp. unfold quat.slerp.
  destruct (Rlt_dec (1 - EPS) (quat.Dot q1 q2)) as [Hc|Hc].
  - rewrite <- (normalized_unit q2 H2) at 2. f_equal.
    apply q_ext; cbn; ring.
  - pose proof (Dot_bound q1 q2 H1 H2) as [Hlo Hhi].
    pose proof EPS_pos as He.
    remember (quat.Dot q1 q2) as c eqn:Ec.
    assert (Eclip : quat.clip c (-1) 1 = c).
    { unfold quat.clip. rewrite Rmax_left by lra. apply Rmin_left; lra. }
    rewrite Eclip, Rmult_1_r.
    rewrite cos_acos, sin_acos by lra.
    destruct q1 as [a b cc d], q2 as [e f g h].
    unfold quat.Dot in H1, H2, Ec. cbn in H1, H2, Ec.
    assert (En : abs (sub (np_quaternion e f g h) (scal c (np_quaternion a b cc d)))
                 = sqrt (1 - c²)).
    { unfold abs. f_equal. unfold Rsqr. cbn.
      replace ((e - c * a) * (e - c * a) + (f - c * b) * (f - c * b)
               + (g - c * cc) * (g - c * cc) + (h - c * d) * (h - c * d))
        with ((e * e + f * f + g * g + h * h)
              - 2 * c * (a * e + b * f + cc * g + d * h)
              + c * c * (a * a + b * b + cc * cc + d * d)) by ring.
      rewrite H1, H2, <- Ec. ring. }
    unfold normalized. rewrite En.
    set (s := sqrt (1 - c²)).
    destruct (Req_dec_T s 0) as [Hs|Hs].
    + assert (Hc1 : 1 - c² = 0) by (apply sqrt_eq_0; [unfold Rsqr; nra|exact Hs]).
      unfold Rsqr in Hc1. nra.
    + apply q_ext; cbn; field; exact Hs.
Qed.

Lemma slerp_at_one_witness :
  quat.slerp 1 (np_quaternion 1 0 0 0) (np_quaternion 0 1 0 0)
    = np_quaternion 0 1 0 0.
Proof.
  apply (slerp_at_one (np_quaternion 1 0 0 0) (np_quaternion 0 1 0 0));
    unfold quat.Dot; cbn; lra.
Defined.

From Stdlib Require Import RNsatz.

(** X22.  For a unit quaternion the 3x3 array that [toTransform] builds is
    a rotation matrix: its product with its transpose is the identity and
    its determinant is 1. *)
Theorem toTransform_m_is_a_rotation (q : quaternion) :
  quat.Dot q q = 1 ->
  shape_is (quat.toTransform_m q) 3 3 = true /\
  dot (quat.toTransform_m q) (transpose (quat.toTransform_m q))
    = Ok [[1; 0; 0]; [0; 1; 0]; [0; 0; 1]] /\
  det (quat.toTransform_m q) = 1.
Proof.
  destruct q as [a b c d]. unfold quat.Dot, quat.toTransform_m. cbn [w x y z].
  intros H. split; [reflexivity|]. split.
  - py_eval. components; nsatz.
  - py_eval. nsatz.
Qed.

Lemma toTransform_m_is_a_rotation_witness :
  det (quat.toTransform_m (np_quaternion (4 / 5) 0 0 (3 / 5))) = 1.
Proof.
  apply (toTransform_m_is_a_rotation (np_quaternion (4 / 5) 0 0 (3 / 5))).
  unfold quat.Dot. cbn [w x y z]. lra.
Defined.

(** X23.  On a Transform whose [m] is the array [toTransform] builds from
    a unit quaternion [q] with [q.z > 1/2], [fromTransform] returns the
    quaternion with [w], [x], [y] negated and [z] kept: not [q], and [-q]
    in no case. *)
Theorem fromTransform_conjugates (q : quaternion) (mi : ndarray) :
  quat.Dot q q = 1 -> 1 / 2 < z q ->
  quat.fromTransform (OTransform (Transform.mk (quat.toTransform_m q) mi))
    = Ok (np_quaternion (- w q) (- x q) (- y q) (z q)).
Proof.
  destruct q as [a b c d]. unfold quat.Dot. cbn [w x y z]. intros H Hd.
  unfold quat.fromTransform, quat.toTransform_m. py_eval.
  match goal with
  | |- context [Rlt_dec 0 ?tr] =>
      replace tr with (4 * (d * d) - 1) by nra;
      destruct (Rlt_dec 0 (4 * (d * d) - 1)) as [_|Hn]; [|nra]
  end.
  replace (4 * (d * d) - 1 + 1) with ((2 * d) * (2 * d)) by ring.
  rewrite sqrt_square by lra.
  assert (E5 : 0.5 = 1 / 2) by lra.
  components; rewrite ?E5; field; lra.
Qed.

Lemma fromTransform_conjugates_witness :
  quat.fromTransform
    (OTransform (Transform.mk
                   (quat.toTransform_m (np_quaternion (4 / 5) 0 0 (3 / 5))) eye4))
    = Ok (np_quaternion (- (4 / 5)) (- 0) (- 0) (3 / 5)).
Proof.
  apply (fromTransform_conjugates (np_quaternion (4 / 5) 0 0 (3 / 5)) eye4);
    unfold quat.Dot; cbn [w x y z]; lra.
Defined.

(** ** Rays and translations *)

(** X24.  Applying an affine transform to a ray succeeds, keeps [mint],
    [maxt] and [time], and commutes with evaluating the ray: the image of
    [o + s * d] is [o' + s * d'] for the transformed origin and
    direction. *)
Theorem affine_transform_commutes_with_ray_evaluation (t : Transform.t)
    (r : Ray) (s : R) :
  affine (Transform.m t) ->
  exists r',
    Transform.call_Ray t r = Ok r' /\
    mint r' = mint r /\ maxt r' = maxt r /\ time r' = time r /\
    Transform.call_Point t (Point_add (o r) (Vector_rmul s (d r)))
      = Ok (Point_add (o r') (Vector_rmul s (d r'))).
Proof.
  destruct t as [a ai]. cbn [Transform.m].
  intros (a00&a01&a02&a03&a10&a11&a12&a13&a20&a21&a22&a23&->).
  destruct r as [[ox oy oz] [dx dy dz] t0 t1 tm].
  unfold Transform.call_Ray, mk4. py_eval.
  rewrite !ne_unity_one by lra.
  eexists. split; [reflexivity|]. py_eval.
  split; [reflexivity|]. split; [reflexivity|]. split; [reflexivity|].
  by_components.
Qed.

Lemma ray_evaluation_witness :
  exists r',
    Transform.call_Ray T_shift
      (mkRay (mkPoint 0 0 0) (mkVector 0 0 1) 0 10 (1 / 2)) = Ok r' /\
    mint r' = 0 /\ maxt r' = 10 /\ time r' = 1 / 2 /\
    Transform.call_Point T_shift
      (Point_add (mkPoint 0 0 0) (Vector_rmul 3 (mkVector 0 0 1)))
      = Ok (Point_add (o r') (Vector_rmul 3 (d r'))).
Proof.
  apply (affine_transform_commutes_with_ray_evaluation T_shift
           (mkRay (mkPoint 0 0 0) (mkVector 0 0 1) 0 10 (1 / 2)) 3).
  exact affine_shift.
Defined.

(** X25.  Translations compose by adding their offsets:
    [translate(u) * translate(v)] is [translate(u + v)], [mInv]
    included. *)
Theorem translations_compose_by_addition (u v : Vector) :
  exists tu tv tuv,
    Transform.translate u = Ok tu /\
    Transform.translate v = Ok tv /\
    Transform.translate (Vector_add u v) = Ok tuv /\
    Transform.mul tu tv = Ok tuv.
Proof.
  destruct u as [ux uy uz], v as [wx wy wz].
  do 3 eexists. split; [reflexivity|]. split; [reflexivity|].
  split; [reflexivity|].
  unfold Transform.mul. py_eval. by_components.
Qed.
